(** * kvshs-school-management: the renderer's dashboard and roster scripts

    A shallow embedding of [src/renderer/backend/dashboard.ts] and
    [src/renderer/backend/students.ts]: the tally loop, the "recent
    applications" query, the roster table with its filter and the detail
    modal.  The DOM, the console and the Supabase client are explicit
    state; thrown errors are values of [Result]. *)

From stdpp Require Import gmap strings list fin_maps pretty sorting.
From Stdlib Require Import Ascii Permutation.

(** ** JavaScript strings and numbers *)

Module JS.

(** [s.startsWith(q)] on strings seen as sequences of code units. *)
Fixpoint startsWith (s q : string) {struct q} : bool :=
  match q, s with
  | EmptyString, _ => true
  | String _ _, EmptyString => false
  | String c q', String d s' =>
      if decide (c = d) then startsWith s' q' else false
  end.

(** [s.includes(q)]: [q] occurs in [s] at some position. *)
Fixpoint includes (s q : string) : bool :=
  startsWith s q
  || match s with
     | EmptyString => false
     | String _ s' => includes s' q
     end.

(** The integers a JavaScript number holds exactly: those of absolute
    value at most 2^53 - 1 ([Number.isSafeInteger]). *)
Definition safe_integer (n : Z) : Prop :=
  (- (2 ^ 53 - 1) ≤ n ≤ 2 ^ 53 - 1)%Z.

#[global] Instance safe_integer_dec (n : Z) : Decision (safe_integer n).
Proof. unfold safe_integer. apply _. Defined.

(** [n.toString()], and [n] interpolated in a template literal, for a
    number that is a safe integer: its decimal numeral, with a leading
    minus sign below zero.  Beyond the safe integers a number prints
    rounded digits, and an exponent from 10^21 on; the definition says
    nothing of the code there. *)
Definition Number_toString (n : Z) : string := pretty n.

(** The double quote and the line break of the markup the scripts
    write. *)
Definition quote : string := String (Ascii.ascii_of_nat 34) EmptyString.
Definition newline : string := String (Ascii.ascii_of_nat 10) EmptyString.

(** A line break and [n] spaces: the start of a line of a template
    literal. *)
Definition line (n : nat) : string :=
  newline +:+ String.concat EmptyString (replicate n " ").

(** The sum of the character codes of a string, to compare a built
    markup with the template of the source. *)
Fixpoint code_sum (s : string) : N :=
  match s with
  | EmptyString => 0
  | String c s' => Ascii.N_of_ascii c + code_sum s'
  end%N.

(** [<name class="classes">] *)
Definition open_tag (name classes : string) : string :=
  "<" +:+ name +:+ " class=" +:+ quote +:+ classes +:+ quote +:+ ">".

(** ASCII case folding: the action of [String.prototype.toLowerCase] on
    strings of code units below 128. *)
Definition ascii_toLower (c : ascii) : ascii :=
  let n := Ascii.nat_of_ascii c in
  if (65 <=? n)%nat && (n <=? 90)%nat then Ascii.ascii_of_nat (n + 32) else c.

Fixpoint ascii_toLowerCase (s : string) : string :=
  match s with
  | EmptyString => EmptyString
  | String c s' => String (ascii_toLower c) (ascii_toLowerCase s')
  end.

(** White space in the sense of [String.prototype.trim], restricted to
    code units below 128: TAB, LF, VT, FF, CR and SPACE. *)
Definition is_whitespace (c : ascii) : bool :=
  let n := Ascii.nat_of_ascii c in
  ((9 <=? n)%nat && (n <=? 13)%nat) || (n =? 32)%nat.

Fixpoint whitespace_only (s : string) : bool :=
  match s with
  | EmptyString => true
  | String c s' => is_whitespace c && whitespace_only s'
  end.

(** What [await query] resolves to: Supabase's [{ data, error }]. *)
Inductive Response (A : Type) : Type :=
| Data (data : A)
| Failed (error : string).
Arguments Data {A} data.
Arguments Failed {A} error.

(** Completion of a function body: a value, or a thrown [Error] with
    its message. *)
Inductive Result (A : Type) : Type :=
| Ok (value : A)
| Throw (message : string).
Arguments Ok {A} value.
Arguments Throw {A} message.

Inductive Level : Type := LogLevel | WarnLevel | ErrorLevel.

#[global] Instance Level_eq_dec : EqDecision Level.
Proof. solve_decision. Defined.

(** One console call: its level and its first (string) argument. *)
Definition Console : Type := list (Level * string).

(** A script over a page state [S]: it ends with a value or a thrown
    error, and leaves the page as far as it got. *)
Definition Script (S A : Type) : Type := S → Result A * S.

Definition ret {S A} (a : A) : Script S A := λ s, (Ok a, s).

Definition bind {S A B} (m : Script S A) (k : A → Script S B) : Script S B :=
  λ s, match m s with
       | (Ok a, s') => k a s'
       | (Throw e, s') => (Throw e, s')
       end.

Definition throw {S A} (message : string) : Script S A :=
  λ s, (Throw message, s).

(** [try { body } catch (err) { handler }]. *)
Definition try_catch {S A} (body : Script S A) (handler : string → Script S A)
  : Script S A :=
  λ s, match body s with
       | (Ok a, s') => (Ok a, s')
       | (Throw e, s') => handler e s'
       end.

(** A statement that only changes the page. *)
Definition modify {S} (f : S → S) : Script S () := λ s, (Ok (), f s).

(** A JavaScript number as the tallies hold it: a count, or NaN. *)
Inductive Num : Type := Int (n : nat) | NaN.

#[global] Instance Num_eq_dec : EqDecision Num.
Proof. solve_decision. Defined.

(** [v + 1] as [v++] stores it. *)
Definition Num_succ (v : Num) : Num :=
  match v with
  | Int n => Int (S n)
  | NaN => NaN
  end.

Definition Num_toString (v : Num) : string :=
  match v with
  | Int n => pretty n
  | NaN => "NaN"
  end.

(** The property names every object literal inherits from
    [Object.prototype]. *)
Definition Object_prototype : list string :=
  [ "constructor"; "__defineGetter__"; "__defineSetter__"; "hasOwnProperty";
    "__lookupGetter__"; "__lookupSetter__"; "isPrototypeOf";
    "propertyIsEnumerable"; "toString"; "valueOf"; "__proto__";
    "toLocaleString" ].

(** [o[k] !== undefined] for an object literal [o] whose own properties
    are numbers: an own property, or an inherited one. *)
Definition defined (o : gmap string Num) (k : string) : bool :=
  bool_decide (is_Some (o !! k)) || bool_decide (k ∈ Object_prototype).

(** [o[k]++].  An own number is incremented.  Otherwise the old value is
    [undefined] or an inherited function or object, which converts to
    NaN, and NaN is stored as a new own property; the store through the
    inherited [__proto__] setter is ignored. *)
Definition increment (o : gmap string Num) (k : string) : gmap string Num :=
  match o !! k with
  | Some v => <[k := Num_succ v]> o
  | None => if decide (k = "__proto__") then o else <[k := NaN]> o
  end.

End JS.
Import JS.

Declare Scope script_scope.
Delimit Scope script_scope with script.
Notation "'let*' x := m 'in' k" := (bind m (λ x, k))
  (at level 10, x name, m at level 100, k at level 200) : script_scope.
Notation "m ;; k" := (bind m (λ _, k))
  (at level 100, k at level 200, right associativity) : script_scope.

(** ** dashboard.ts *)

Module Dashboard.

(** [interface NewStudent].  The unions of string literals are not
    checked at run time ([data as NewStudent[]]): a field holds whatever
    string the store returns. *)
Record NewStudent : Type := {
  lname : string;
  fname : string;
  strand : string;
  gradeLevel : Z;
  semester : string;
  enrollment_status : string;
}.

#[global] Instance NewStudent_eq_dec : EqDecision NewStudent.
Proof. solve_decision. Defined.

(** A row of [.select('strand, enrollment_status')], read as
    [Partial<NewStudent>]: [None] is a null or missing column. *)
Record PartialStudent : Type := {
  p_strand : option string;
  p_enrollment_status : option string;
}.

(** *** SELECTORS *)
Definition stemCount : string := ".stat-stem-count".
Definition abmCount : string := ".stat-abm-count".
Definition tvlCount : string := ".stat-tvl-count".
Definition humssCount : string := ".stat-humss-count".
Definition pendingCount : string := ".stat-pending-count".
Definition enrolledCount : string := ".stat-enrolled-count".
Definition rejectedCount : string := ".stat-rejected-count".
Definition recentTableBody : string := "#recent-table-body".

(** The members of the two unions. *)
Definition strands : list string := ["STEM"; "ABM"; "TVL-ICT"; "HUMSS"].
Definition statuses : list string := ["Pending"; "Enrolled"; "Rejected"].

(** The two object literals the tallies start from. *)
Definition strandCounts0 : gmap string Num :=
  <["STEM" := Int 0]> (<["ABM" := Int 0]> (<["TVL-ICT" := Int 0]>
    (<["HUMSS" := Int 0]> ∅))).
Definition statusCounts0 : gmap string Num :=
  <["Pending" := Int 0]> (<["Enrolled" := Int 0]> (<["Rejected" := Int 0]> ∅)).

(** [if (key && counts[key] !== undefined) { counts[key]++; }] *)
Definition tally (counts : gmap string Num) (key : option string)
  : gmap string Num :=
  match key with
  | Some k =>
      if bool_decide (k ≠ EmptyString) && defined counts k
      then increment counts k
      else counts
  | None => counts
  end.

(** [tally] by cases: the value it stores under [k], if any, given the
    own property found there. *)
Definition tally_value (k : string) (old : option Num) : option Num :=
  if bool_decide (k ≠ EmptyString)
     && (bool_decide (is_Some old) || bool_decide (k ∈ Object_prototype))
  then match old with
       | Some v => Some (Num_succ v)
       | None => if decide (k = "__proto__") then None else Some NaN
       end
  else None.

(** The body of [students.forEach]. *)
Definition tally_student (acc : gmap string Num * gmap string Num)
    (student : PartialStudent) : gmap string Num * gmap string Num :=
  (tally acc.1 (p_strand student), tally acc.2 (p_enrollment_status student)).

Definition tally_students (students : list PartialStudent)
  : gmap string Num * gmap string Num :=
  foldl tally_student (strandCounts0, statusCounts0) students.

(** The reading of one counter of a tally. *)
Definition counter (counts : gmap string Num) (k : string) : nat :=
  match counts !! k with
  | Some (Int n) => n
  | _ => 0
  end.

(** [sum] of the counters of an enumeration. *)
Definition total (keys : list string) (counts : gmap string Num) : nat :=
  sum_list (counter counts <$> keys).

(** How many rows hold [k] in a column. *)
Definition occurrences (k : string) (column : list (option string)) : nat :=
  length (filter (λ v, v = Some k) column).

Definition recognized (keys : list string) (v : option string) : Prop :=
  ∃ k, v = Some k ∧ k ∈ keys.

#[global] Instance recognized_dec keys v : Decision (recognized keys v).
Proof.
  destruct v as [k|].
  - destruct (decide (k ∈ keys)) as [Hin|Hout].
    + left. by exists k.
    + right. intros [k' [[= <-] Hk]]. done.
  - right. intros [k [[=] _]].
Defined.

(** *** The page *)

(** The markup of one [<tr>], as [generateTableRow] returns it. *)
Definition TableRow : Type := string.

(** A query as the script builds it on [supabase]: the arguments of
    [.from] and [.select], and those of [.order] (column, ascending) and
    [.limit] when it calls them. *)
Record Query : Type := {
  q_from : string;
  q_select : string;
  q_order : option (string * bool);
  q_limit : option nat;
}.

#[global] Instance Query_eq_dec : EqDecision Query.
Proof. solve_decision. Defined.

(** The query of [fetchAndProcessAllStudents] and the query of
    [fetchRecentApplications]. *)
Definition SelectCounts : Query :=
  {| q_from := "NewStudents";
     q_select := "strand, enrollment_status";
     q_order := None;
     q_limit := None |}.
Definition SelectRecent : Query :=
  {| q_from := "NewStudents";
     q_select := "gradeLevel, lname, fname, semester, strand, enrollment_status";
     q_order := Some ("lname", false);
     q_limit := Some 5 |}.

Record Page : Type := {
  (** per selector, the [textContent] of the element it finds; no entry
      when [querySelector] finds none *)
  textContent : gmap string string;
  (** the markup assigned to [innerHTML] of [#recent-table-body], as the
      strings that [join('')] puts together, one per row; [None] without
      that element *)
  recentRows : option (list TableRow);
  console : Console;
  (** the queries sent to the store, oldest first *)
  requests : list Query;
}.

Definition set_textContent (f : gmap string string → gmap string string)
    (p : Page) : Page :=
  {| textContent := f (textContent p); recentRows := recentRows p;
     console := console p; requests := requests p |}.
Definition set_recentRows (rows : option (list TableRow)) (p : Page) : Page :=
  {| textContent := textContent p; recentRows := rows;
     console := console p; requests := requests p |}.
Definition console_call (lvl : Level) (msg : string) : Script Page () :=
  modify (λ p, {| textContent := textContent p; recentRows := recentRows p;
                  console := console p ++ [(lvl, msg)];
                  requests := requests p |}).
Definition send (q : Query) : Script Page () :=
  modify (λ p, {| textContent := textContent p; recentRows := recentRows p;
                  console := console p; requests := requests p ++ [q] |}).

(** What the store answers to each of the two queries. *)
Record Supabase : Type := {
  counts_response : Response (list PartialStudent);
  recent_response : Response (list NewStudent);
}.

Local Open Scope script_scope.

Definition fetchAndProcessAllStudents (db : Supabase)
  : Script Page (gmap string Num * gmap string Num) :=
  send {| q_from := "NewStudents";
          q_select := "strand, enrollment_status";
          q_order := None;
          q_limit := None |} ;;
  match counts_response db with
  | Failed _ => throw "Failed to load student data."
  | Data students => ret (tally_students students)
  end.

Definition fetchRecentApplications (db : Supabase)
  : Script Page (list NewStudent) :=
  let orderByColumn := "lname" in
  send {| q_from := "NewStudents";
          q_select :=
            "gradeLevel, lname, fname, semester, strand, enrollment_status";
          q_order := Some (orderByColumn, false);
          q_limit := Some 5 |} ;;
  match recent_response db with
  | Failed _ =>
      console_call ErrorLevel "Error fetching recent applications:" ;;
      throw "Failed to load recent applications."
  | Data data => ret data
  end.

Definition updateElementText (selector text : string) : Script Page () :=
  λ p, match textContent p !! selector with
       | Some _ => (Ok (), set_textContent (insert selector text) p)
       | None =>
           console_call WarnLevel
             ("Element not found for selector: " +:+ selector) p
       end.

Definition generateTableRow (student : NewStudent) : TableRow :=
  let statusClass :=
    if decide (enrollment_status student = "Pending")
    then "bg-yellow-100 text-yellow-800"
    else if decide (enrollment_status student = "Enrolled")
    then "bg-green-100 text-green-800"
    else "bg-red-100 text-red-800" in
  line 8 +:+ open_tag "tr"
                "bg-white border-b hover:bg-gray-50 transition-colors"
  +:+ line 12 +:+ open_tag "td"
                    "py-4 px-6 font-medium text-gray-900 whitespace-nowrap"
  +:+ fname student +:+ " " +:+ lname student +:+ "</td>"
  +:+ line 12 +:+ open_tag "td" "py-4 px-6" +:+ strand student +:+ "</td>"
  +:+ line 12 +:+ open_tag "td" "py-4 px-6 text-center"
  +:+ Number_toString (gradeLevel student) +:+ "</td>"
  +:+ line 12 +:+ open_tag "td" "py-4 px-6 text-center"
  +:+ semester student +:+ "</td>"
  +:+ line 12 +:+ open_tag "td" "py-4 px-6"
  +:+ line 16 +:+ open_tag "span"
                    ("px-2.5 py-0.5 rounded-full text-xs font-semibold "
                     +:+ statusClass)
  +:+ line 20 +:+ enrollment_status student
  +:+ line 16 +:+ "</span>"
  +:+ line 12 +:+ "</td>"
  +:+ line 8 +:+ "</tr>"
  +:+ line 4.

(** [counts.KEY.toString()]: reading a missing property gives
    [undefined], whose [toString] is a TypeError. *)
Definition count_toString (counts : gmap string Num) (key : string)
  : Script Page string :=
  match counts !! key with
  | Some v => ret (Num_toString v)
  | None => throw "TypeError: Cannot read properties of undefined"
  end.

Definition update_count (selector : string) (counts : gmap string Num)
    (key : string) : Script Page () :=
  let* text := count_toString counts key in
  updateElementText selector text.

(** The [DOMContentLoaded] listener. *)
Definition onDOMContentLoaded (db : Supabase) : Script Page () :=
  try_catch
    (let* counts := fetchAndProcessAllStudents db in
     let strandCounts := counts.1 in
     let statusCounts := counts.2 in
     let* recentApplications := fetchRecentApplications db in
     update_count stemCount strandCounts "STEM" ;;
     update_count abmCount strandCounts "ABM" ;;
     update_count tvlCount strandCounts "TVL-ICT" ;;
     update_count humssCount strandCounts "HUMSS" ;;
     update_count pendingCount statusCounts "Pending" ;;
     update_count enrolledCount statusCounts "Enrolled" ;;
     update_count rejectedCount statusCounts "Rejected" ;;
     modify (λ p, match recentRows p with
                  | Some _ =>
                      set_recentRows
                        (Some (generateTableRow <$> recentApplications)) p
                  | None => p
                  end))
    (λ err, console_call ErrorLevel "Error loading dashboard data:").

(** *** The store's side of a query

    The script sorts nothing and cuts nothing itself: [.order] and
    [.limit] are arguments of the query, and the store evaluates them.
    [orderBy column ascending] stands for the store's [ORDER BY]. *)

Definition lname_desc (a b : NewStudent) : Prop :=
  String.leb (lname b) (lname a) = true.

#[global] Instance lname_desc_dec a b : Decision (lname_desc a b).
Proof. unfold lname_desc. apply _. Defined.

(** What [ORDER BY lname DESC] promises: the rows of the table,
    rearranged so that last names never increase. *)
Definition orders_by_lname_desc
    (order : list NewStudent → list NewStudent) : Prop :=
  ∀ table, order table ≡ₚ table ∧ Sorted lname_desc (order table).

(** The store's answer to a query over the rows of [NewStudents]: the
    rows in the order the query asks for, cut at the limit it asks
    for. *)
Definition serve
    (orderBy : string → bool → list NewStudent → list NewStudent)
    (table : list NewStudent) (q : Query) : Response (list NewStudent) :=
  let ordered :=
    match q_order q with
    | Some (column, ascending) => orderBy column ascending table
    | None => table
    end in
  Data (match q_limit q with
        | Some n => take n ordered
        | None => ordered
        end).

(** Two stores that both honour the ordering: a merge sort on
    descending last names, and the reversal of a merge sort on ascending
    last names. *)
Definition order_merge (table : list NewStudent) : list NewStudent :=
  merge_sort lname_desc table.
Definition order_reversed (table : list NewStudent) : list NewStudent :=
  reverse (merge_sort (flip lname_desc) table).

(** The same two stores as [ORDER BY] of any column and direction; they
    know how to sort by [lname] and leave the table as it is for any
    other column. *)
Definition merge_store (column : string) (ascending : bool)
    (table : list NewStudent) : list NewStudent :=
  if decide (column = "lname")
  then if ascending then merge_sort (flip lname_desc) table
       else order_merge table
  else table.
Definition reversing_store (column : string) (ascending : bool)
    (table : list NewStudent) : list NewStudent :=
  if decide (column = "lname")
  then if ascending then merge_sort (flip lname_desc) table
       else order_reversed table
  else table.

(** The bound of the claim for a number [n] of rows asked for. *)
Definition at_most (n : nat) (table result : list NewStudent) : Prop :=
  length result ≤ n `min` length table.

(** Rows with equal last names keep their relative order from [table]
    in [result]. *)
Definition ties_keep_order (table result : list NewStudent) : Prop :=
  ∀ i j a b, i < j → result !! i = Some a → result !! j = Some b →
    lname a = lname b →
    ∃ i' j', i' < j' ∧ table !! i' = Some a ∧ table !! j' = Some b.

(** *** Sample data *)

Definition jane_doe : NewStudent :=
  {| lname := "Doe"; fname := "Jane"; strand := "STEM"; gradeLevel := 11;
     semester := "1st"; enrollment_status := "Pending" |}.
Definition ana_cruz : NewStudent :=
  {| lname := "Cruz"; fname := "Ana"; strand := "ABM"; gradeLevel := 12;
     semester := "2nd"; enrollment_status := "Enrolled" |}.
Definition ben_cruz : NewStudent :=
  {| lname := "Cruz"; fname := "Ben"; strand := "HUMSS"; gradeLevel := 11;
     semester := "1st"; enrollment_status := "Rejected" |}.

(** A pending STEM student of grade 11 of the given names. *)
Definition applicant (last first : string) : NewStudent :=
  {| lname := last; fname := first; strand := "STEM"; gradeLevel := 11;
     semester := "1st"; enrollment_status := "Pending" |}.

(** A table of seven rows, two of them of one family. *)
Definition seven_rows : list NewStudent :=
  [ applicant "Garcia" "Lia"; ana_cruz; applicant "Abad" "Rey"; jane_doe;
    applicant "Santos" "Mia"; ben_cruz; applicant "Reyes" "Jun" ].

Definition columns (s : NewStudent) : PartialStudent :=
  {| p_strand := Some (strand s);
     p_enrollment_status := Some (enrollment_status s) |}.

(** A store whose counts query answers and whose recent-applications
    query fails. *)
Definition recent_outage : Supabase :=
  {| counts_response := Data [columns jane_doe; columns ana_cruz];
     recent_response := Failed "FetchError: network" |}.

(** A dashboard page as served: every counter reads 0 and the table of
    recent applications is empty. *)
Definition served_page : Page :=
  {| textContent :=
       list_to_map
         ((λ selector, (selector, "0")) <$>
            [ stemCount; abmCount; tvlCount; humssCount;
              pendingCount; enrolledCount; rejectedCount ]);
     recentRows := Some [];
     console := [];
     requests := [] |}.

(** *** Vocabulary of the rendering properties *)

(** The counters of the page: the selector of each, and the key of the
    tally it shows. *)
Definition strand_counters : list (string * string) :=
  [ (stemCount, "STEM"); (abmCount, "ABM"); (tvlCount, "TVL-ICT");
    (humssCount, "HUMSS") ].
Definition status_counters : list (string * string) :=
  [ (pendingCount, "Pending"); (enrolledCount, "Enrolled");
    (rejectedCount, "Rejected") ].

(** The texts the listener writes for a list of rows, in the order of the
    calls of [updateElementText]. *)
Definition count_texts (students : list PartialStudent)
  : list (string * string) :=
  ((λ c, (c.1, pretty (occurrences c.2 (p_strand <$> students))))
     <$> strand_counters)
  ++ ((λ c, (c.1, pretty (occurrences c.2 (p_enrollment_status <$> students))))
        <$> status_counters).

(** A run of calls of [updateElementText]. *)
Definition update_texts (updates : list (string * string)) (p : Page) : Page :=
  foldl (λ q u, (updateElementText u.1 u.2 q).2) p updates.

(** The last statement of the [try] block: the rows of the table, when
    the page has the table. *)
Definition show_recent (recent : list NewStudent) (p : Page) : Page :=
  match recentRows p with
  | Some _ => set_recentRows (Some (generateTableRow <$> recent)) p
  | None => p
  end.

(** The page with both queries on record. *)
Definition requested (p : Page) : Page :=
  (send SelectRecent (send SelectCounts p).2).2.

(** The warning of [updateElementText] for a selector that finds
    nothing. *)
Definition not_found (selector : string) : Level * string :=
  (WarnLevel, "Element not found for selector: " +:+ selector).

End Dashboard.

(** ** students.ts *)

Module Students.

(** [interface NewStudent], as in dashboard.ts. *)
Record NewStudent : Type := {
  lname : string;
  fname : string;
  strand : string;
  gradeLevel : Z;
  semester : string;
  enrollment_status : string;
}.

(** A [<tr>] of [#studentTableBody]. *)
Record Row : Type := {
  className : string;
  (** [row.dataset]: the [data-*] attributes *)
  dataset : gmap string string;
  (** the markup assigned to [row.innerHTML] *)
  innerHTML : string;
  (** [row.style.display] *)
  display : string;
}.

Definition set_display (d : string) (r : Row) : Row :=
  {| className := className r; dataset := dataset r;
     innerHTML := innerHTML r; display := d |}.

(** The elements the script looks up by id.  [None] or [false]: the page
    has no element of that id. *)
Record Page : Type := {
  (** [#searchInput] and its [value] *)
  searchInput : option string;
  (** the three [<select>]s and their [value]s *)
  filterStrand : option string;
  filterYear : option string;
  filterSemester : option string;
  (** [#studentTableBody] and its rows *)
  studentTableBody : option (list Row);
  (** [#studentModal] and its [classList] *)
  studentModal : option (gset string);
  closeModal : bool;
  (** the five text holders of the modal and their [textContent] *)
  modalName : option string;
  modalStrand : option string;
  modalYear : option string;
  modalSemester : option string;
  modalStatus : option string;
  (** the script's [allStudents] variable *)
  allStudents : list NewStudent;
  (** listeners the script has added: element id and event type *)
  listeners : list (string * string);
  console : Console;
  (** how many queries were sent to the store *)
  requests : nat;
}.

Definition with_rows (rows : list Row) (p : Page) : Page :=
  {| searchInput := searchInput p; filterStrand := filterStrand p;
     filterYear := filterYear p; filterSemester := filterSemester p;
     studentTableBody := Some rows; studentModal := studentModal p;
     closeModal := closeModal p; modalName := modalName p;
     modalStrand := modalStrand p; modalYear := modalYear p;
     modalSemester := modalSemester p; modalStatus := modalStatus p;
     allStudents := allStudents p; listeners := listeners p;
     console := console p; requests := requests p |}.

Definition with_modal (classes : option (gset string))
    (name strand year semester status : option string) (p : Page) : Page :=
  {| searchInput := searchInput p; filterStrand := filterStrand p;
     filterYear := filterYear p; filterSemester := filterSemester p;
     studentTableBody := studentTableBody p; studentModal := classes;
     closeModal := closeModal p; modalName := name;
     modalStrand := strand; modalYear := year;
     modalSemester := semester; modalStatus := status;
     allStudents := allStudents p; listeners := listeners p;
     console := console p; requests := requests p |}.

Definition with_controls (search strand year semester : option string)
    (p : Page) : Page :=
  {| searchInput := search; filterStrand := strand;
     filterYear := year; filterSemester := semester;
     studentTableBody := studentTableBody p; studentModal := studentModal p;
     closeModal := closeModal p; modalName := modalName p;
     modalStrand := modalStrand p; modalYear := modalYear p;
     modalSemester := modalSemester p; modalStatus := modalStatus p;
     allStudents := allStudents p; listeners := listeners p;
     console := console p; requests := requests p |}.

Definition with_script (students : list NewStudent)
    (ls : list (string * string)) (c : Console) (n : nat) (p : Page) : Page :=
  {| searchInput := searchInput p; filterStrand := filterStrand p;
     filterYear := filterYear p; filterSemester := filterSemester p;
     studentTableBody := studentTableBody p; studentModal := studentModal p;
     closeModal := closeModal p; modalName := modalName p;
     modalStrand := modalStrand p; modalYear := modalYear p;
     modalSemester := modalSemester p; modalStatus := modalStatus p;
     allStudents := students; listeners := ls;
     console := c; requests := n |}.

Definition console_call (lvl : Level) (msg : string) : Script Page () :=
  modify (λ p, with_script (allStudents p) (listeners p)
                 (console p ++ [(lvl, msg)]) (requests p) p).

Definition addEventListener (element type : string) : Script Page () :=
  modify (λ p, with_script (allStudents p) (listeners p ++ [(element, type)])
                 (console p) (requests p) p).

Local Open Scope script_scope.

Definition fetchAllStudents (db : Response (list NewStudent))
  : Script Page (list NewStudent) :=
  modify (λ p, with_script (allStudents p) (listeners p) (console p)
                 (S (requests p)) p) ;;
  match db with
  | Failed _ =>
      console_call ErrorLevel "Error fetching students:" ;;
      throw "Failed to load students."
  | Data data =>
      console_call LogLevel "Fetched students for table:" ;;
      ret data
  end.

(** The row [populateTable] builds for the student at [index]. *)
Definition student_row (index : nat) (student : NewStudent) : Row :=
  let rowClass := if decide (index `mod` 2 = 0) then "bg-white" else "bg-gray-50" in
  let statusClass :=
    if decide (enrollment_status student = "Pending")
    then "bg-yellow-100 text-yellow-800"
    else if decide (enrollment_status student = "Enrolled")
    then "bg-green-100 text-green-800"
    else "bg-red-100 text-red-800" in
  {| className := rowClass +:+ " border-b";
     dataset :=
       <["status" := enrollment_status student]>
         (<["semester" := semester student]>
           (<["year" := Number_toString (gradeLevel student)]>
             (<["strand" := strand student]>
               (<["name" := fname student +:+ " " +:+ lname student]> ∅))));
     innerHTML :=
       line 16 +:+ open_tag "td" "py-4 px-6"
       +:+ fname student +:+ " " +:+ lname student +:+ "</td>"
       +:+ line 16 +:+ open_tag "td" "py-4 px-6" +:+ strand student +:+ "</td>"
       +:+ line 16 +:+ open_tag "td" "py-4 px-6 pl-12"
       +:+ Number_toString (gradeLevel student) +:+ "</td>"
       +:+ line 16 +:+ open_tag "td" "py-4 px-6 pl-12"
       +:+ semester student +:+ "</td>"
       +:+ line 16 +:+ open_tag "td" "py-4 px-6"
       +:+ open_tag "span"
             ("text-xs font-semibold mr-2 px-2.5 py-0.5 rounded-full "
              +:+ statusClass)
       +:+ enrollment_status student +:+ "</span></td>"
       +:+ line 16 +:+ open_tag "td" "py-4 px-4 text-right"
       +:+ open_tag "button"
             "view-btn px-4 py-1.5 bg-gray-100 text-gray-600 text-xs font-bold rounded-md hover:bg-gray-200"
       +:+ "VIEW</button></td>"
       +:+ line 12;
     display := EmptyString |}.

(** [tableBody.innerHTML = ''] and one appended row per student. *)
Definition populateTable (students : list NewStudent) : Script Page () :=
  modify (with_rows (imap student_row students)).

(** The row of the [catch] branch, as the markup assigned to
    [tableBody.innerHTML] parses: one [<tr>] without [data-*] attributes,
    holding one cell. *)
Definition error_row : Row :=
  {| className := EmptyString; dataset := ∅;
     innerHTML :=
       "<td colspan=" +:+ quote +:+ "6" +:+ quote +:+ " class=" +:+ quote
       +:+ "py-4 px-6 text-center text-red-500" +:+ quote
       +:+ ">Error loading students.</td>";
     display := EmptyString |}.

(** [row.dataset.key ?? fallback] *)
Definition dataset_or (fallback : string) (row : Row) (key : string) : string :=
  default fallback (dataset row !! key).

Section Filter.

(** [String.prototype.toLowerCase]. *)
Variable toLowerCase : string → string.

(** The body of the loop of [filterTable], for the four control
    values read before the loop. *)
Definition filter_row (searchValue strand year semester : string)
    (row : Row) : Row :=
  let searchTerm := toLowerCase searchValue in
  let name := toLowerCase (dataset_or EmptyString row "name") in
  let rowStrand := dataset_or EmptyString row "strand" in
  let rowYear := dataset_or EmptyString row "year" in
  let rowSemester := dataset_or EmptyString row "semester" in
  let nameMatch := includes name searchTerm in
  let strandMatch :=
    bool_decide (strand = "all") || bool_decide (rowStrand = strand) in
  let yearMatch :=
    bool_decide (year = "all") || bool_decide (rowYear = year) in
  let semesterMatch :=
    bool_decide (semester = "all") || bool_decide (rowSemester = semester) in
  if nameMatch && strandMatch && yearMatch && semesterMatch
  then set_display EmptyString row
  else set_display "none" row.

(** [filterTable]; it runs inside the closure, past the guard on the
    five controls. *)
Definition filterTable (p : Page) : Page :=
  match searchInput p, filterStrand p, filterYear p, filterSemester p,
        studentTableBody p with
  | Some searchValue, Some strand, Some year, Some semester, Some rows =>
      with_rows (filter_row searchValue strand year semester <$> rows) p
  | _, _, _, _, _ => p
  end.

(** [openStudentModal(row)] *)
Definition openStudentModal (row : Row) (p : Page) : Page :=
  with_modal
    ((λ classList, classList ∖ {["hidden"]}) <$> studentModal p)
    ((λ _, dataset_or "N/A" row "name") <$> modalName p)
    ((λ _, dataset_or "N/A" row "strand") <$> modalStrand p)
    ((λ _, dataset_or "N/A" row "year") <$> modalYear p)
    ((λ _, dataset_or "N/A" row "semester") <$> modalSemester p)
    ((λ _, dataset_or "N/A" row "status") <$> modalStatus p)
    p.

(** [modal.classList.add('hidden')], behind [if (modal)]. *)
Definition hideModal (p : Page) : Page :=
  with_modal
    ((λ classList, classList ∪ {["hidden"]}) <$> studentModal p)
    (modalName p) (modalStrand p) (modalYear p) (modalSemester p)
    (modalStatus p) p.

(** The [DOMContentLoaded] listener. *)
Definition onDOMContentLoaded (db : Response (list NewStudent))
  : Script Page () :=
  λ p,
  match studentTableBody p, searchInput p, filterStrand p, filterYear p,
        filterSemester p with
  | Some _, Some _, Some _, Some _, Some _ =>
      (modify (λ p, with_script [] (listeners p) (console p) (requests p) p) ;;
       try_catch
         (let* students := fetchAllStudents db in
          modify (λ p, with_script students (listeners p) (console p)
                         (requests p) p) ;;
          populateTable students)
         (λ err,
           console_call ErrorLevel "Error loading students:" ;;
           modify (with_rows [error_row])) ;;
       addEventListener "searchInput" "input" ;;
       addEventListener "filterStrand" "change" ;;
       addEventListener "filterYear" "change" ;;
       addEventListener "filterSemester" "change" ;;
       addEventListener "studentTableBody" "click" ;;
       (if closeModal p then addEventListener "closeModal" "click"
        else ret ()) ;;
       (match studentModal p with
        | Some _ => addEventListener "studentModal" "click"
        | None => ret ()
        end)) p
  | _, _, _, _, _ =>
      console_call ErrorLevel
        "Failed to find one or more essential elements. Script will not run."
        p
  end.

(** *** What the user does on the page *)

Inductive Event : Type :=
(** typing: [#searchInput] takes a new value and fires [input] *)
| TypeSearch (value : string)
(** choosing an option of one of the selects fires [change] *)
| ChooseStrand (value : string)
| ChooseYear (value : string)
| ChooseSemester (value : string)
(** a click inside the table body: whether [target.closest('.view-btn')]
    finds a button, and the index of the row [target.closest('tr')]
    finds *)
| ClickTable (onViewButton : bool) (row : option nat)
(** a click on [#closeModal] *)
| ClickClose
(** a click that reaches [#studentModal]: on the modal element itself
    (the backdrop) or on something inside it *)
| ClickModal (onBackdrop : bool).

Definition listening (p : Page) (element type : string) : bool :=
  bool_decide ((element, type) ∈ listeners p).

(** The browser's part of an event (the control takes its new value),
    then the listener, if one was added. *)
Definition dispatch (e : Event) (p : Page) : Page :=
  match e with
  | TypeSearch v =>
      let p' := with_controls ((λ _, v) <$> searchInput p) (filterStrand p)
                  (filterYear p) (filterSemester p) p in
      if listening p "searchInput" "input" then filterTable p' else p'
  | ChooseStrand v =>
      let p' := with_controls (searchInput p) ((λ _, v) <$> filterStrand p)
                  (filterYear p) (filterSemester p) p in
      if listening p "filterStrand" "change" then filterTable p' else p'
  | ChooseYear v =>
      let p' := with_controls (searchInput p) (filterStrand p)
                  ((λ _, v) <$> filterYear p) (filterSemester p) p in
      if listening p "filterYear" "change" then filterTable p' else p'
  | ChooseSemester v =>
      let p' := with_controls (searchInput p) (filterStrand p)
                  (filterYear p) ((λ _, v) <$> filterSemester p) p in
      if listening p "filterSemester" "change" then filterTable p' else p'
  | ClickTable onViewButton row =>
      if listening p "studentTableBody" "click" then
        match onViewButton, row ≫= (λ i, studentTableBody p ≫= (.!! i)) with
        | true, Some r => openStudentModal r p
        | _, _ => p
        end
      else p
  | ClickClose =>
      if listening p "closeModal" "click" then hideModal p else p
  | ClickModal onBackdrop =>
      if listening p "studentModal" "click" && onBackdrop
      then hideModal p else p
  end.

End Filter.

(** *** The detail view *)

Inductive Detail : Type := Closed | Open.

(** The modal shows unless its class list holds [hidden]. *)
Definition detail (p : Page) : option Detail :=
  (λ classList, if decide ("hidden" ∈ classList) then Closed else Open)
    <$> studentModal p.

(** What the open modal displays. *)
Record DetailView : Type := {
  displayName : string;
  track : string;
  level : string;
  term : string;
  status : string;
}.

Definition detailView (p : Page) : option DetailView :=
  match modalName p, modalStrand p, modalYear p, modalSemester p,
        modalStatus p with
  | Some n, Some s, Some y, Some t, Some st =>
      Some {| displayName := n; track := s; level := y; term := t;
              status := st |}
  | _, _, _, _, _ => None
  end.

(** The four filter predicates on a record, for the control values. *)
Definition name_matches (toLowerCase : string → string)
    (searchValue : string) (s : NewStudent) : Prop :=
  ∃ pre post,
    toLowerCase (fname s +:+ " " +:+ lname s)
    = pre +:+ toLowerCase searchValue +:+ post.

Definition selects (selected value : string) : Prop :=
  selected = "all" ∨ value = selected.

(** *** Vocabulary of the properties *)

(** The five controls the guard of the listener asks for. *)
Definition essential (p : Page) : Prop :=
  is_Some (studentTableBody p) ∧ is_Some (searchInput p)
  ∧ is_Some (filterStrand p) ∧ is_Some (filterYear p)
  ∧ is_Some (filterSemester p).

(** The modal, its close button and its five text holders. *)
Definition modal_complete (p : Page) : Prop :=
  is_Some (studentModal p) ∧ closeModal p = true
  ∧ is_Some (modalName p) ∧ is_Some (modalStrand p)
  ∧ is_Some (modalYear p) ∧ is_Some (modalSemester p)
  ∧ is_Some (modalStatus p).

(** The listeners the script adds, in order, on a page [p]. *)
Definition added_listeners (p : Page) : list (string * string) :=
  [ ("searchInput", "input"); ("filterStrand", "change");
    ("filterYear", "change"); ("filterSemester", "change");
    ("studentTableBody", "click") ]
  ++ (if closeModal p then [("closeModal", "click")] else [])
  ++ (if studentModal p is Some _ then [("studentModal", "click")] else []).

(** What the [try]/[catch] around the fetch leaves behind. *)
Definition loaded_students (db : Response (list NewStudent))
  : list NewStudent :=
  match db with
  | Data data => data
  | Failed _ => []
  end.
Definition loaded_rows (db : Response (list NewStudent)) : list Row :=
  match db with
  | Data data => imap student_row data
  | Failed _ => [error_row]
  end.
Definition loaded_console (db : Response (list NewStudent)) : Console :=
  match db with
  | Data _ => [(LogLevel, "Fetched students for table:")]
  | Failed _ => [ (ErrorLevel, "Error fetching students:");
                  (ErrorLevel, "Error loading students:") ]
  end.

(** The fields of a row as the modal reads them. *)
Definition row_view (row : Row) : DetailView :=
  {| displayName := dataset_or "N/A" row "name";
     track := dataset_or "N/A" row "strand";
     level := dataset_or "N/A" row "year";
     term := dataset_or "N/A" row "semester";
     status := dataset_or "N/A" row "status" |}.

(** A selection event: a click on the VIEW button of a row of the
    table. *)
Definition selection (e : Event) (p : Page) : option Row :=
  match e with
  | ClickTable true (Some i) => studentTableBody p ≫= (.!! i)
  | _ => None
  end.

(** A dismiss event: the close button, or a click outside the detail
    surface, on the backdrop. *)
Definition dismissal (e : Event) : bool :=
  match e with
  | ClickClose | ClickModal true => true
  | _ => false
  end.

(** The modal side of a page: what the detail view is read from, and
    the listeners. *)
Definition modal_part (p : Page) :=
  (studentModal p, closeModal p, modalName p, modalStrand p, modalYear p,
   modalSemester p, modalStatus p, listeners p).

(** A page on which the script has run with the modal in place. *)
Definition ready (p : Page) : Prop :=
  modal_complete p
  ∧ ("studentTableBody", "click") ∈ listeners p
  ∧ ("closeModal", "click") ∈ listeners p
  ∧ ("studentModal", "click") ∈ listeners p.

(** The page once the script has loaded on [served] and the events have
    been handled, oldest first. *)
Definition after (toLowerCase : string → string)
    (db : Response (list NewStudent)) (served : Page) (events : list Event)
  : Page :=
  foldl (λ p e, dispatch toLowerCase e p) (onDOMContentLoaded db served).2
    events.

(** *** Sample data *)

Definition jane_doe : NewStudent :=
  {| lname := "Doe"; fname := "Jane"; strand := "STEM"; gradeLevel := 11;
     semester := "1st"; enrollment_status := "Pending" |}.
Definition ana_cruz : NewStudent :=
  {| lname := "Cruz"; fname := "Ana"; strand := "ABM"; gradeLevel := 12;
     semester := "2nd"; enrollment_status := "Enrolled" |}.

(** Modelled from the spec: the markup of the roster page is not part of
    the sources.  The spec gives the detail view the initial state
    Closed, so the modal is served with the class [hidden]; the search
    box is served empty and the three selects on their [all] option. *)
Definition served_page : Page :=
  {| searchInput := Some EmptyString;
     filterStrand := Some "all";
     filterYear := Some "all";
     filterSemester := Some "all";
     studentTableBody := Some [];
     studentModal := Some {["hidden"]};
     closeModal := true;
     modalName := Some EmptyString;
     modalStrand := Some EmptyString;
     modalYear := Some EmptyString;
     modalSemester := Some EmptyString;
     modalStatus := Some EmptyString;
     allStudents := [];
     listeners := [];
     console := [];
     requests := 0 |}.

(** The rows of the table after [populateTable students] and a run of
    [filterTable] with the four controls at the given values. *)
Definition filtered_rows (toLowerCase : string → string)
    (searchValue strand year semester : string)
    (students : list NewStudent) (p : Page) : option (list Row) :=
  studentTableBody
    (filterTable toLowerCase
       (with_controls (Some searchValue) (Some strand) (Some year)
          (Some semester) (populateTable students p).2)).

(** The events of the four filter controls. *)
Definition is_filter_event (e : Event) : bool :=
  match e with
  | TypeSearch _ | ChooseStrand _ | ChooseYear _ | ChooseSemester _ => true
  | _ => false
  end.

(** The values of the four filter controls. *)
Definition controls (p : Page)
  : option string * option string * option string * option string :=
  (searchInput p, filterStrand p, filterYear p, filterSemester p).

(** What the script keeps besides the elements of the page. *)
Definition script_part (p : Page) : list NewStudent * Console * nat :=
  (allStudents p, console p, requests p).

(** A row without its [display]. *)
Definition undisplayed (r : Row) : Row := set_display EmptyString r.

(** The listeners of the four filter controls are in place. *)
Definition filters_listening (p : Page) : Prop :=
  ("searchInput", "input") ∈ listeners p
  ∧ ("filterStrand", "change") ∈ listeners p
  ∧ ("filterYear", "change") ∈ listeners p
  ∧ ("filterSemester", "change") ∈ listeners p.

#[global] Instance essential_dec (p : Page) : Decision (essential p).
Proof. unfold essential. apply _. Defined.

(** The table with every [display] left out. *)
Definition table_undisplayed (p : Page) : option (list Row) :=
  match studentTableBody p with
  | Some rows => Some (undisplayed <$> rows)
  | None => None
  end.

(** A page on which the script has loaded [students] and listens to
    the filter controls. *)
Definition loaded_with (students : list NewStudent) (p : Page) : Prop :=
  essential p ∧ filters_listening p
  ∧ table_undisplayed p = Some (imap student_row students).

(** The class list of the modal, [hidden] aside. *)
Definition other_classes (p : Page) : option (gset string) :=
  (λ classList, classList ∖ {["hidden"]}) <$> studentModal p.

(** The rows of a populated table on which earlier runs of the filter
    have left the displays [d 0], [d 1], ... *)
Definition displayed_rows (d : nat → string) (students : list NewStudent)
  : list Row :=
  imap (λ i s, set_display (d i) (student_row i s)) students.

(** The rows after a run of [filterTable] over such a table, with the
    four controls at the given values. *)
Definition refiltered_rows (toLowerCase : string → string)
    (searchValue strand year semester : string) (d : nat → string)
    (students : list NewStudent) (p : Page) : option (list Row) :=
  studentTableBody
    (filterTable toLowerCase
       (with_controls (Some searchValue) (Some strand) (Some year)
          (Some semester) (with_rows (displayed_rows d students) p))).

(** The rows of a table show exactly the records that the four control
    values let through: one row per record, each shown or hidden, and
    shown if and only if the four predicates hold of its record. *)
Definition shows_exactly (toLowerCase : string → string)
    (searchValue strand year semester : string)
    (students : list NewStudent) (rows : list Row) : Prop :=
  length rows = length students
  ∧ ∀ i s, students !! i = Some s →
      ∃ row, rows !! i = Some row
        ∧ (display row = EmptyString ∨ display row = "none")
        ∧ (display row = EmptyString
           ↔ name_matches toLowerCase searchValue s
             ∧ selects strand (Students.strand s)
             ∧ selects year (Number_toString (gradeLevel s))
             ∧ selects semester (Students.semester s)).

(** The visibility flag of each row: shown unless [display] is none. *)
Definition shown (rows : option (list Row)) : option (list bool) :=
  match rows with
  | Some rs => Some ((λ row, bool_decide (display row = EmptyString)) <$> rs)
  | None => None
  end.

End Students.

(** * Properties *)

(** ** The string primitives *)

Lemma append_String (c : ascii) (s t : string) :
  String c s +:+ t = String c (s +:+ t).
Proof. reflexivity. Qed.

Lemma append_Empty (t : string) : EmptyString +:+ t = t.
Proof. reflexivity. Qed.

Lemma startsWith_spec (s q : string) :
  startsWith s q = true ↔ ∃ post, s = q +:+ post.
Proof.
  revert s. induction q as [|c q IH]; intros s; simpl.
  - split; [intros _; by exists s | done].
  - destruct s as [|d s]; simpl.
    + split; [done | intros [post H]; discriminate].
    + destruct (decide (c = d)) as [->|Hne].
      * rewrite IH. split; intros [post H]; exists post.
        -- by rewrite append_String, H.
        -- rewrite append_String in H. by injection H.
      * split; [done | intros [post H]].
        rewrite append_String in H. congruence.
Qed.

Lemma includes_spec (s q : string) :
  includes s q = true ↔ ∃ pre post, s = pre +:+ q +:+ post.
Proof.
  induction s as [|d s IH]; simpl.
  - rewrite orb_false_r, startsWith_spec. split.
    + intros [post H]. by exists EmptyString, post.
    + intros [pre [post H]]. destruct pre; [by exists post | discriminate].
  - rewrite orb_true_iff, startsWith_spec, IH. split.
    + intros [[post H] | [pre [post H]]].
      * by exists EmptyString, post.
      * exists (String d pre), post. by rewrite append_String, H.
    + intros [pre [post H]]. destruct pre as [|e pre].
      * left. by exists post.
      * right. exists pre, post. rewrite append_String in H. congruence.
Qed.

Lemma includes_empty (s : string) : includes s EmptyString = true.
Proof. destruct s; reflexivity. Qed.


(** ** The tallies of dashboard.ts *)

Section Tallies.
Import Dashboard.

Lemma tally_Some (m : gmap string Num) (k : string) :
  tally m (Some k)
  = match tally_value k (m !! k) with
    | Some v => <[k := v]> m
    | None => m
    end.
Proof.
  unfold tally, tally_value, defined, increment.
  destruct (m !! k) as [v|] eqn:Hk; simpl.
  - by destruct (bool_decide (k ≠ EmptyString)).
  - destruct (bool_decide (k ≠ EmptyString)); simpl; [|done].
    destruct (bool_decide (k ∈ Object_prototype)); simpl; [|done].
    by destruct (decide (k = "__proto__")).
Qed.

Lemma tally_lookup_ne (m : gmap string Num) (v : option string) (k : string) :
  v ≠ Some k → tally m v !! k = m !! k.
Proof.
  intros Hne. destruct v as [k'|]; [|done].
  rewrite tally_Some. destruct (tally_value k' (m !! k')); [|done].
  apply lookup_insert_ne. congruence.
Qed.

Lemma tally_lookup_eq (m : gmap string Num) (k : string) (n : nat) :
  k ≠ EmptyString → m !! k = Some (Int n) →
  tally m (Some k) !! k = Some (Int (S n)).
Proof.
  intros Hk Hm. rewrite tally_Some, Hm. unfold tally_value.
  rewrite (bool_decide_eq_true_2 (k ≠ EmptyString)) by done.
  simpl. apply lookup_insert_eq.
Qed.

Lemma tally_comm (m : gmap string Num) (a b : option string) :
  tally (tally m a) b = tally (tally m b) a.
Proof.
  destruct a as [ka|]; [|done]. destruct b as [kb|]; [|done].
  destruct (decide (ka = kb)) as [->|Hne]; [done|].
  rewrite (tally_Some (tally m (Some ka)) kb).
  rewrite (tally_Some (tally m (Some kb)) ka).
  rewrite !tally_lookup_ne by congruence.
  rewrite !tally_Some.
  destruct (tally_value ka (m !! ka)), (tally_value kb (m !! kb)); try done.
  by apply insert_insert_ne.
Qed.

Lemma tally_counter (m : gmap string Num) (v : option string) (k : string)
    (n : nat) :
  k ≠ EmptyString → m !! k = Some (Int n) →
  tally m v !! k = Some (Int (n + if decide (v = Some k) then 1 else 0)).
Proof.
  intros Hk Hm. destruct (decide (v = Some k)) as [->|Hne].
  - rewrite (tally_lookup_eq m k n) by done. f_equal. f_equal. lia.
  - rewrite tally_lookup_ne by done. rewrite Hm. f_equal. f_equal. lia.
Qed.

Lemma occurrences_nil (k : string) : occurrences k [] = 0.
Proof. reflexivity. Qed.

Lemma occurrences_cons (k : string) (v : option string)
    (column : list (option string)) :
  occurrences k (v :: column)
  = (if decide (v = Some k) then 1 else 0) + occurrences k column.
Proof.
  unfold occurrences. rewrite filter_cons.
  by destruct (decide (v = Some k)).
Qed.

Lemma occurrences_snoc (k : string) (v : option string)
    (column : list (option string)) :
  occurrences k (column ++ [v])
  = occurrences k column + (if decide (v = Some k) then 1 else 0).
Proof.
  unfold occurrences. rewrite filter_app, length_app, filter_cons.
  by destruct (decide (v = Some k)).
Qed.

(** The loop invariant of [forEach]: a counter that is an own number
    grows by the occurrences of its key. *)
Lemma foldl_tally_student (students : list PartialStudent)
    (acc : gmap string Num * gmap string Num) (k : string) :
  k ≠ EmptyString →
  (∀ n, acc.1 !! k = Some (Int n) →
     (foldl tally_student acc students).1 !! k
     = Some (Int (n + occurrences k (p_strand <$> students))))
  ∧ (∀ n, acc.2 !! k = Some (Int n) →
     (foldl tally_student acc students).2 !! k
     = Some (Int (n + occurrences k (p_enrollment_status <$> students)))).
Proof.
  intros Hk. revert acc.
  induction students as [|s students IH]; intros acc.
  - split; intros n Hn; simpl; rewrite Hn, occurrences_nil;
      f_equal; f_equal; lia.
  - destruct (IH (tally_student acc s)) as [IH1 IH2].
    split; intros n Hn; rewrite fmap_cons, occurrences_cons; simpl.
    + rewrite (IH1 (n + if decide (p_strand s = Some k) then 1 else 0)).
      * f_equal. f_equal. lia.
      * by apply tally_counter.
    + rewrite (IH2 (n + if decide (p_enrollment_status s = Some k)
                        then 1 else 0)).
      * f_equal. f_equal. lia.
      * by apply tally_counter.
Qed.

Lemma strands_nonempty (k : string) : k ∈ strands → k ≠ EmptyString.
Proof.
  unfold strands. rewrite !elem_of_cons, elem_of_nil.
  intros [->|[->|[->|[->|[]]]]]; discriminate.
Qed.

Lemma statuses_nonempty (k : string) : k ∈ statuses → k ≠ EmptyString.
Proof.
  unfold statuses. rewrite !elem_of_cons, elem_of_nil.
  intros [->|[->|[->|[]]]]; discriminate.
Qed.

Lemma strandCounts0_lookup (k : string) :
  k ∈ strands → strandCounts0 !! k = Some (Int 0).
Proof.
  unfold strands. rewrite !elem_of_cons, elem_of_nil.
  intros [->|[->|[->|[->|[]]]]]; reflexivity.
Qed.

Lemma statusCounts0_lookup (k : string) :
  k ∈ statuses → statusCounts0 !! k = Some (Int 0).
Proof.
  unfold statuses. rewrite !elem_of_cons, elem_of_nil.
  intros [->|[->|[->|[]]]]; reflexivity.
Qed.

Lemma tally_students_strand (students : list PartialStudent) (k : string) :
  k ∈ strands →
  (tally_students students).1 !! k
  = Some (Int (occurrences k (p_strand <$> students))).
Proof.
  intros Hk. unfold tally_students.
  destruct (foldl_tally_student students (strandCounts0, statusCounts0) k
              (strands_nonempty k Hk)) as [H _].
  by rewrite (H 0 (strandCounts0_lookup k Hk)).
Qed.

Lemma tally_students_status (students : list PartialStudent) (k : string) :
  k ∈ statuses →
  (tally_students students).2 !! k
  = Some (Int (occurrences k (p_enrollment_status <$> students))).
Proof.
  intros Hk. unfold tally_students.
  destruct (foldl_tally_student students (strandCounts0, statusCounts0) k
              (statuses_nonempty k Hk)) as [_ H].
  by rewrite (H 0 (statusCounts0_lookup k Hk)).
Qed.

(** *** Sums over an enumeration *)

Lemma indicator_sum (keys : list string) (v : option string) :
  NoDup keys →
  sum_list ((λ k, if decide (v = Some k) then 1 else 0) <$> keys)
  = if decide (recognized keys v) then 1 else 0.
Proof.
  induction 1 as [|k keys Hk Hnd IH].
  - destruct (decide (recognized [] v)) as [[k [_ Hin]]|]; [|done].
    by apply elem_of_nil in Hin.
  - rewrite fmap_cons. cbn [sum_list]. rewrite IH. destruct (decide (v = Some k)) as [->|Hne].
    + rewrite (decide_True (P := recognized (k :: keys) (Some k))).
      * rewrite decide_False; [done|]. intros [k' [[= <-] Hin]]. done.
      * exists k. split; [done | by left].
    + destruct (decide (recognized keys v)) as [[k' [-> Hin]]|Hno].
      * rewrite decide_True; [done|]. exists k'. split; [done | by right].
      * rewrite decide_False; [done|]. intros [k' [-> Hin]].
        apply elem_of_cons in Hin as [->|Hin]; [done|].
        apply Hno. by exists k'.
Qed.

Lemma occurrences_sum (keys : list string) (column : list (option string)) :
  NoDup keys →
  sum_list ((λ k, occurrences k column) <$> keys)
  = length (filter (recognized keys) column).
Proof.
  intros Hnd. induction column as [|v column IH].
  - clear Hnd. induction keys as [|k keys IHk]; [done|].
    rewrite fmap_cons. cbn [sum_list]. by rewrite IHk.
  - rewrite filter_cons.
    transitivity
      (sum_list ((λ k, if decide (v = Some k) then 1 else 0) <$> keys)
       + sum_list ((λ k, occurrences k column) <$> keys)).
    + clear. induction keys as [|k keys IHk]; [done|].
      rewrite !fmap_cons. cbn [sum_list]. rewrite IHk, occurrences_cons.
      unfold id. destruct (decide (v = Some k)); lia.
    + rewrite IH, indicator_sum by done.
      by destruct (decide (recognized keys v)).
Qed.

Lemma filter_all_length {A} (P : A → Prop) `{!∀ x, Decision (P x)}
    (l : list A) :
  length (filter P l) = length l ↔ Forall P l.
Proof.
  induction l as [|x l IH].
  - split; [constructor | done].
  - rewrite filter_cons. pose proof (length_filter P l) as Hle.
    destruct (decide (P x)) as [Hx|Hx]; simpl.
    + rewrite Forall_cons. split.
      * intros [= Hlen]. split; [done | by apply IH].
      * intros [_ Hall]. f_equal. by apply IH.
    + split; [lia|]. intros Hall. by apply Forall_cons in Hall as [? _].
Qed.

Lemma strands_NoDup : NoDup strands.
Proof. apply (bool_decide_unpack (NoDup strands)). by vm_compute. Qed.

Lemma statuses_NoDup : NoDup statuses.
Proof. apply (bool_decide_unpack (NoDup statuses)). by vm_compute. Qed.

Lemma total_strands (students : list PartialStudent) :
  total strands (tally_students students).1
  = length (filter (recognized strands) (p_strand <$> students)).
Proof.
  rewrite <- (occurrences_sum strands) by apply strands_NoDup.
  unfold total. f_equal. apply list_fmap_ext. intros i k Hk.
  apply list_elem_of_lookup_2 in Hk.
  unfold counter. by rewrite tally_students_strand.
Qed.

Lemma total_statuses (students : list PartialStudent) :
  total statuses (tally_students students).2
  = length (filter (recognized statuses) (p_enrollment_status <$> students)).
Proof.
  rewrite <- (occurrences_sum statuses) by apply statuses_NoDup.
  unfold total. f_equal. apply list_fmap_ext. intros i k Hk.
  apply list_elem_of_lookup_2 in Hk.
  unfold counter. by rewrite tally_students_status.
Qed.

(** *** Reordering *)

Lemma tally_student_comm (acc : gmap string Num * gmap string Num)
    (a b : PartialStudent) :
  tally_student (tally_student acc a) b = tally_student (tally_student acc b) a.
Proof.
  unfold tally_student. simpl. f_equal; apply tally_comm.
Qed.

Lemma foldl_tally_student_Permutation (l1 l2 : list PartialStudent) :
  l1 ≡ₚ l2 →
  ∀ acc, foldl tally_student acc l1 = foldl tally_student acc l2.
Proof.
  induction 1 as [|x l1 l2 _ IH|x y l|l1 l2 l3 _ IH1 _ IH2]; intros acc; simpl.
  - done.
  - apply IH.
  - by rewrite tally_student_comm.
  - by rewrite IH1.
Qed.

(** C3. For every sequence of rows, empty or not,
    [fetchAndProcessAllStudents] ends without an error and returns the
    two tallies of the counting loop.  Both are total over their
    enumeration: each of the four strands and each of the three statuses
    is present, with the number of rows that hold exactly that value (0
    when there is none).  One more row adds one to the counter of its
    strand, and one to the counter of its status, when that value is a
    member of the enumeration, and leaves every other counter of the
    enumerations alone; a row whose value is missing or is no member
    changes none of them. *)
Theorem fetchAndProcessAllStudents_counts
    (students : list PartialStudent) (recent : Response (list NewStudent))
    (page : Page) :
  ∃ strandCounts statusCounts page',
    fetchAndProcessAllStudents
      {| counts_response := Data students; recent_response := recent |} page
    = (Ok (strandCounts, statusCounts), page')
    ∧ (∀ k, k ∈ strands →
         strandCounts !! k
         = Some (Int (occurrences k (p_strand <$> students))))
    ∧ (∀ k, k ∈ statuses →
         statusCounts !! k
         = Some (Int (occurrences k (p_enrollment_status <$> students))))
    ∧ (∀ student k, k ∈ strands →
         counter (tally_students (students ++ [student])).1 k
         = counter strandCounts k
           + (if decide (p_strand student = Some k) then 1 else 0))
    ∧ (∀ student k, k ∈ statuses →
         counter (tally_students (students ++ [student])).2 k
         = counter statusCounts k
           + (if decide (p_enrollment_status student = Some k)
              then 1 else 0)).
Proof.
  exists (tally_students students).1, (tally_students students).2.
  eexists. split; [|split; [|split; [|split]]].
  - unfold fetchAndProcessAllStudents, bind, send, modify, ret. simpl.
    by destruct (tally_students students).
  - intros k Hk. by apply tally_students_strand.
  - intros k Hk. by apply tally_students_status.
  - intros student k Hk. unfold counter.
    rewrite !tally_students_strand by done.
    rewrite fmap_app. change (p_strand <$> [student]) with [p_strand student].
    by rewrite occurrences_snoc.
  - intros student k Hk. unfold counter.
    rewrite !tally_students_status by done.
    rewrite fmap_app.
    change (p_enrollment_status <$> [student])
      with [p_enrollment_status student].
    by rewrite occurrences_snoc.
Qed.

(** C5. For every sequence of rows, the four strand counters add up to
    at most the number of rows, and to exactly that number if and only
    if every row holds one of the four strands; likewise the three
    status counters and the three statuses. *)
Theorem tally_totals (students : list PartialStudent) :
  (total strands (tally_students students).1 ≤ length students
   ∧ (total strands (tally_students students).1 = length students
      ↔ Forall (λ s, recognized strands (p_strand s)) students))
  ∧ (total statuses (tally_students students).2 ≤ length students
     ∧ (total statuses (tally_students students).2 = length students
        ↔ Forall (λ s, recognized statuses (p_enrollment_status s))
             students)).
Proof.
  rewrite total_strands, total_statuses.
  pose proof (length_filter (recognized strands) (p_strand <$> students))
    as Hle1.
  pose proof (filter_all_length (recognized strands) (p_strand <$> students))
    as Hall1.
  pose proof (length_filter (recognized statuses)
                (p_enrollment_status <$> students)) as Hle2.
  pose proof (filter_all_length (recognized statuses)
                (p_enrollment_status <$> students)) as Hall2.
  rewrite length_fmap in Hle1, Hall1, Hle2, Hall2.
  rewrite Forall_fmap in Hall1, Hall2.
  split; split; assumption.
Qed.

(** C9. The tallies of a sequence of rows and of any rearrangement of
    it are the same pair of mappings. *)
Theorem tally_students_Permutation (students students' : list PartialStudent) :
  students ≡ₚ students' → tally_students students = tally_students students'.
Proof.
  intros Hperm. unfold tally_students.
  by apply foldl_tally_student_Permutation.
Qed.

Lemma tally_students_Permutation_witness :
  tally_students
    [ {| p_strand := Some "STEM"; p_enrollment_status := Some "Pending" |};
      {| p_strand := Some "toString"; p_enrollment_status := None |};
      {| p_strand := Some "ABM"; p_enrollment_status := Some "Enrolled" |} ]
  = tally_students
    [ {| p_strand := Some "ABM"; p_enrollment_status := Some "Enrolled" |};
      {| p_strand := Some "STEM"; p_enrollment_status := Some "Pending" |};
      {| p_strand := Some "toString"; p_enrollment_status := None |} ].
Proof.
  apply tally_students_Permutation.
  symmetry. apply (Permutation_cons_append [_; _]).
Defined.

End Tallies.

(** ** The recent applications of dashboard.ts *)

Section Recent.
Import Dashboard.

Lemma String_leb_trans (a b c : string) :
  String.leb a b = true → String.leb b c = true → String.leb a c = true.
Proof.
  revert b c. induction a as [|x a IH]; intros [|y b] [|z c];
    unfold String.leb; simpl; try done.
  destruct (Ascii.compare x y) eqn:Hxy; [| |done];
    (destruct (Ascii.compare y z) eqn:Hyz; [| |done]).
  - apply Ascii.compare_eq_iff in Hxy as ->.
    rewrite Hyz. apply IH.
  - apply Ascii.compare_eq_iff in Hxy as ->. by rewrite Hyz.
  - apply Ascii.compare_eq_iff in Hyz as <-. by rewrite Hxy.
  - unfold Ascii.compare in *.
    rewrite N.compare_lt_iff in Hxy, Hyz.
    assert ((N_of_ascii x ?= N_of_ascii z)%N = Lt) as ->; [|done].
    apply N.compare_lt_iff. lia.
Qed.

#[local] Instance lname_desc_Transitive : Transitive lname_desc.
Proof. intros a b c Hab Hbc. by apply (String_leb_trans _ (lname b)). Qed.

#[local] Instance lname_desc_Total : Total lname_desc.
Proof.
  intros a b. unfold lname_desc.
  destruct (String.leb_total (lname b) (lname a)); auto.
Qed.

#[local] Instance lname_asc_Total : Total (flip lname_desc).
Proof. intros a b. destruct (lname_desc_Total a b); auto. Qed.

Lemma order_merge_spec : orders_by_lname_desc order_merge.
Proof.
  intros table. split.
  - apply merge_sort_Permutation.
  - apply (Sorted_merge_sort lname_desc).
Qed.

Lemma order_reversed_spec : orders_by_lname_desc order_reversed.
Proof.
  intros table. unfold order_reversed. split.
  - by rewrite reverse_Permutation, merge_sort_Permutation.
  - apply Sorted_reverse. apply (Sorted_merge_sort (flip lname_desc)).
Qed.

Lemma take_ordered (order : list NewStudent → list NewStudent)
    (table : list NewStudent) (n : nat) :
  orders_by_lname_desc order →
  length (take n (order table)) = n `min` length table
  ∧ take n (order table) ⊆+ table
  ∧ StronglySorted lname_desc (take n (order table)).
Proof.
  intros Horder. destruct (Horder table) as [Hperm Hsorted].
  apply Sorted_StronglySorted in Hsorted; [|apply _].
  rewrite <- (take_drop n (order table)) in Hsorted.
  split; [|split].
  - by rewrite length_take, Hperm.
  - transitivity (order table);
      [apply submseteq_take | by apply Permutation_submseteq].
  - by apply StronglySorted_app_1_l in Hsorted.
Qed.

Lemma merge_store_spec : orders_by_lname_desc (merge_store "lname" false).
Proof. apply order_merge_spec. Qed.

Lemma reversing_store_spec :
  orders_by_lname_desc (reversing_store "lname" false).
Proof. apply order_reversed_spec. Qed.

(** The query [fetchRecentApplications] sends, whatever the store
    answers. *)
Lemma fetchRecentApplications_sends (db : Supabase) (page : Page) :
  requests (fetchRecentApplications db page).2
  = requests page ++ [SelectRecent].
Proof.
  unfold fetchRecentApplications, bind, send, modify. simpl.
  by destruct (recent_response db).
Qed.

(** C4, as the script has it.  [fetchRecentApplications] sends one
    query, and when the store answers that very query over a table,
    ordering by last name as [ORDER BY lname DESC] promises, the function
    ends without an error and returns min(5, number of rows) rows, all
    drawn from the table (each at most as often as the table holds it),
    in descending lexicographic order of last name.  The limit is the
    constant 5 of the query; the order among rows of equal last name is
    the store's. *)
Theorem fetchRecentApplications_ordered
    (orderBy : string → bool → list NewStudent → list NewStudent)
    (table : list NewStudent) (counts : Response (list PartialStudent))
    (page : Page) :
  orders_by_lname_desc (orderBy "lname" false) →
  ∃ sent recent page',
    fetchRecentApplications
      {| counts_response := counts;
         recent_response := serve orderBy table sent |} page
    = (Ok recent, page')
    ∧ requests page' = requests page ++ [sent]
    ∧ length recent = 5 `min` length table
    ∧ recent ⊆+ table
    ∧ StronglySorted lname_desc recent.
Proof.
  intros Horder.
  exists SelectRecent, (take 5 (orderBy "lname" false table)). eexists.
  split; [reflexivity|]. split; [reflexivity|]. by apply take_ordered.
Qed.

Lemma fetchRecentApplications_ordered_witness :
  ∃ sent recent page',
    fetchRecentApplications
      {| counts_response := Data [];
         recent_response := serve merge_store seven_rows sent |} served_page
    = (Ok recent, page')
    ∧ requests page' = requests served_page ++ [sent]
    ∧ length recent = 5 `min` length seven_rows
    ∧ recent ⊆+ seven_rows
    ∧ StronglySorted lname_desc recent.
Proof.
  apply (fetchRecentApplications_ordered merge_store seven_rows (Data [])
           served_page).
  apply merge_store_spec.
Defined.

(** C4 as stated fails for a number of rows other than five.  The
    function has no parameter: the limit is the constant 5 of the query
    it sends.  Asked of a table of seven rows it returns five of them, in
    descending order of last name, so the bound min(n, 7) fails for
    n = 3. *)
Lemma fetchRecentApplications_returns_five :
  requests
    (fetchRecentApplications
       {| counts_response := Data [];
          recent_response := serve merge_store seven_rows SelectRecent |}
       served_page).2
  = requests served_page ++ [SelectRecent]
  ∧ (fetchRecentApplications
       {| counts_response := Data [];
          recent_response := serve merge_store seven_rows SelectRecent |}
       served_page).1
    = Ok [ applicant "Santos" "Mia"; applicant "Reyes" "Jun";
           applicant "Garcia" "Lia"; jane_doe; ben_cruz ]
  ∧ ¬ at_most 3 seven_rows
        [ applicant "Santos" "Mia"; applicant "Reyes" "Jun";
          applicant "Garcia" "Lia"; jane_doe; ben_cruz ].
Proof.
  split; [reflexivity|]. split; [by vm_compute|].
  unfold at_most. simpl. lia.
Qed.

(** The script asks for no second column to order by, so the order among
    rows of equal last name is left to the store: one that honours the
    ordering may return two such rows in the reverse of their order in the
    table. *)
Lemma store_may_reorder_ties :
  orders_by_lname_desc (reversing_store "lname" false)
  ∧ (fetchRecentApplications
       {| counts_response := Data [];
          recent_response :=
            serve reversing_store [ana_cruz; ben_cruz] SelectRecent |}
       served_page).1
    = Ok [ben_cruz; ana_cruz]
  ∧ lname ana_cruz = lname ben_cruz
  ∧ ¬ ties_keep_order [ana_cruz; ben_cruz] [ben_cruz; ana_cruz].
Proof.
  split; [apply reversing_store_spec|].
  split; [by vm_compute|]. split; [done|].
  intros Hstable.
  destruct (Hstable 0 1 ben_cruz ana_cruz) as (i & j & Hij & Hi & Hj);
    [lia | done | done | done |].
  destruct i as [|[|i]], j as [|[|j]]; simpl in Hi, Hj;
    try discriminate; lia.
Qed.

End Recent.

(** ** The roster of students.ts *)

Section Roster.
Import Students.

Variable toLowerCase : string → string.

Lemma student_row_dataset (index : nat) (s : NewStudent) :
  dataset (student_row index s) !! "name"
  = Some (fname s +:+ " " +:+ lname s)
  ∧ dataset (student_row index s) !! "strand" = Some (strand s)
  ∧ dataset (student_row index s) !! "year"
    = Some (Number_toString (gradeLevel s))
  ∧ dataset (student_row index s) !! "semester" = Some (semester s)
  ∧ dataset (student_row index s) !! "status" = Some (enrollment_status s).
Proof. repeat split; reflexivity. Qed.

Lemma populateTable_rows (students : list NewStudent) (p : Page) :
  studentTableBody (populateTable students p).2
  = Some (imap student_row students).
Proof. reflexivity. Qed.

Lemma filter_row_display (q st yr sem : string) (row : Row) :
  display (filter_row toLowerCase q st yr sem row) = EmptyString
  ∨ display (filter_row toLowerCase q st yr sem row) = "none".
Proof.
  unfold filter_row.
  destruct (_ && _); [by left | by right].
Qed.

Lemma filter_row_student (q st yr sem : string) (index : nat)
    (s : NewStudent) :
  display (filter_row toLowerCase q st yr sem (student_row index s))
  = EmptyString
  ↔ name_matches toLowerCase q s
    ∧ selects st (strand s)
    ∧ selects yr (Number_toString (gradeLevel s))
    ∧ selects sem (semester s).
Proof.
  unfold filter_row, dataset_or, name_matches, selects.
  destruct (student_row_dataset index s) as (-> & -> & -> & -> & _).
  simpl default. rewrite <- includes_spec.
  destruct (includes _ _); simpl.
  - repeat case_bool_decide; simpl; intuition congruence.
  - intuition discriminate.
Qed.

Lemma filtered_rows_eq (q st yr sem : string) (students : list NewStudent)
    (p : Page) :
  filtered_rows toLowerCase q st yr sem students p
  = Some (filter_row toLowerCase q st yr sem <$> imap student_row students).
Proof. reflexivity. Qed.

Lemma filtered_rows_lookup (q st yr sem : string)
    (students : list NewStudent) (i : nat) (s : NewStudent) :
  students !! i = Some s →
  (filter_row toLowerCase q st yr sem <$> imap student_row students) !! i
  = Some (filter_row toLowerCase q st yr sem (student_row i s)).
Proof.
  intros Hs. by rewrite list_lookup_fmap, list_lookup_imap, Hs.
Qed.

End Roster.

Lemma ascii_toLower_whitespace (c : ascii) :
  is_whitespace c = true → ascii_toLower c = c.
Proof. by destruct c as [[] [] [] [] [] [] [] []]. Qed.

Lemma ascii_toLowerCase_whitespace (q : string) :
  whitespace_only q = true → ascii_toLowerCase q = q.
Proof.
  induction q as [|c q IH]; [done|]. simpl.
  intros [Hc Hq]%andb_true_iff.
  by rewrite ascii_toLower_whitespace, IH.
Qed.

(** ** Loading the roster and the detail modal of students.ts *)

Section Modal.
Import Students.

Variable toLowerCase : string → string.

(** The listener on a page that has the five controls. *)
Lemma onDOMContentLoaded_essential (db : Response (list NewStudent))
    (p : Page) :
  essential p →
  onDOMContentLoaded db p
  = (Ok (),
     with_script (loaded_students db)
       (listeners p ++ added_listeners p)
       (console p ++ loaded_console db) (S (requests p))
       (with_rows (loaded_rows db) p)).
Proof.
  intros ([rows Hrows] & [q Hq] & [st Hst] & [yr Hyr] & [sem Hsem]).
  unfold onDOMContentLoaded. rewrite Hrows, Hq, Hst, Hyr, Hsem.
  unfold added_listeners.
  destruct db as [data|err], (closeModal p) eqn:Hclose,
    (studentModal p) as [classes|] eqn:Hmodal;
    cbv [bind try_catch modify ret throw fetchAllStudents populateTable
         console_call addEventListener with_script with_rows
         loaded_students loaded_rows loaded_console
         allStudents listeners console requests
         searchInput filterStrand filterYear filterSemester
         studentTableBody studentModal closeModal modalName modalStrand
         modalYear modalSemester modalStatus];
    destruct p; simpl in *; subst;
    rewrite <- ?(assoc_L (++)); reflexivity.
Qed.

(** The listener on a page that lacks one of them. *)
Lemma onDOMContentLoaded_guard (db : Response (list NewStudent)) (p : Page) :
  ¬ essential p →
  onDOMContentLoaded db p
  = (Ok (),
     with_script (allStudents p) (listeners p)
       (console p
        ++ [(ErrorLevel,
             "Failed to find one or more essential elements. Script will not run.")])
       (requests p) p).
Proof.
  intros Hno. unfold onDOMContentLoaded.
  destruct (studentTableBody p) eqn:Hrows, (searchInput p) eqn:Hq,
    (filterStrand p) eqn:Hst, (filterYear p) eqn:Hyr,
    (filterSemester p) eqn:Hsem; try reflexivity.
  destruct Hno. unfold essential.
  rewrite Hrows, Hq, Hst, Hyr, Hsem. eauto 10.
Qed.

Lemma modal_part_eq (p q : Page) :
  modal_part p = modal_part q →
  detail p = detail q ∧ detailView p = detailView q ∧ (ready p → ready q).
Proof.
  unfold modal_part, detail, detailView, ready, modal_complete.
  intros [= -> -> -> -> -> -> -> ->]. auto.
Qed.

Lemma filterTable_modal_part (p : Page) :
  modal_part (filterTable toLowerCase p) = modal_part p.
Proof. unfold filterTable. by repeat case_match. Qed.

Lemma openStudentModal_ready (row : Row) (p : Page) :
  ready p →
  ready (openStudentModal row p)
  ∧ detail (openStudentModal row p) = Some Open
  ∧ detailView (openStudentModal row p) = Some (row_view row).
Proof.
  intros [([c Hc] & Hclose & [n Hn] & [s Hs] & [y Hy] & [t Ht] & [st Hst])
          Hls].
  unfold ready, modal_complete, detail, detailView, openStudentModal.
  simpl. rewrite Hc, Hn, Hs, Hy, Ht, Hst. simpl.
  split; [eauto 12|]. split; [|done].
  rewrite decide_False; [done|].
  rewrite elem_of_difference, elem_of_singleton. tauto.
Qed.

Lemma hideModal_ready (p : Page) :
  ready p →
  ready (hideModal p)
  ∧ detail (hideModal p) = Some Closed
  ∧ detailView (hideModal p) = detailView p.
Proof.
  intros [([c Hc] & Hclose & Hn & Hs & Hy & Ht & Hst) Hls].
  unfold ready, modal_complete, detail, detailView, hideModal.
  simpl. rewrite Hc. simpl.
  split; [eauto 12|]. split; [|done].
  rewrite decide_True; [done|].
  by apply elem_of_union_r, elem_of_singleton.
Qed.

Lemma listening_true (p : Page) (element type : string) :
  (element, type) ∈ listeners p → listening p element type = true.
Proof. intros Hin. unfold listening. by apply bool_decide_eq_true_2. Qed.

(** One event on a ready page: the page stays ready, and the detail
    view moves as the kind of the event says. *)
Lemma dispatch_ready (e : Event) (p : Page) :
  ready p →
  ready (dispatch toLowerCase e p)
  ∧ match selection e p with
    | Some row =>
        detail (dispatch toLowerCase e p) = Some Open
        ∧ detailView (dispatch toLowerCase e p) = Some (row_view row)
    | None =>
        detail (dispatch toLowerCase e p)
        = (if dismissal e then Some Closed else detail p)
        ∧ detailView (dispatch toLowerCase e p) = detailView p
    end.
Proof.
  intros Hready.
  assert (∀ q, modal_part q = modal_part p →
            ready q ∧ detail q = detail p ∧ detailView q = detailView p)
    as Hsame.
  { intros q Hq. symmetry in Hq.
    destruct (modal_part_eq p q Hq) as (-> & -> & Hr). auto. }
  pose proof Hready as (_ & Htable & Hclose & Hmodal).
  destruct e as [v|v|v|v|onViewButton row| |onBackdrop]; simpl.
  1-4: (apply Hsame; destruct (listening _ _ _);
        [by rewrite filterTable_modal_part | done]).
  - rewrite (listening_true _ _ _ Htable).
    destruct onViewButton; [|by apply Hsame].
    destruct row as [i|]; simpl; [|by apply Hsame].
    destruct (studentTableBody p ≫= (.!! i)) as [r|]; [|by apply Hsame].
    by apply openStudentModal_ready.
  - rewrite (listening_true _ _ _ Hclose). by apply hideModal_ready.
  - rewrite (listening_true _ _ _ Hmodal).
    destruct onBackdrop; simpl; [by apply hideModal_ready | by apply Hsame].
Qed.

Lemma foldl_dispatch_ready (events : list Event) (p : Page) :
  ready p → ready (foldl (λ q e, dispatch toLowerCase e q) p events).
Proof.
  revert p. induction events as [|e events IH]; intros p Hready; [done|].
  simpl. apply IH. by apply dispatch_ready.
Qed.

Lemma onDOMContentLoaded_ready (db : Response (list NewStudent)) (p : Page) :
  essential p → modal_complete p →
  ready (onDOMContentLoaded db p).2
  ∧ detail (onDOMContentLoaded db p).2 = detail p
  ∧ detailView (onDOMContentLoaded db p).2 = detailView p.
Proof.
  intros Hess Hmodal. rewrite (onDOMContentLoaded_essential db p Hess).
  pose proof Hmodal as ([c Hc] & Hclose & _).
  split; [|done]. split; [done|].
  simpl. unfold added_listeners. rewrite Hclose, Hc.
  rewrite !elem_of_app, !elem_of_cons. auto 20.
Qed.

(** C7. On a page served with every element of the roster in place and
    the modal hidden: the detail view is Closed once the script has
    loaded, and after any sequence of events it is Closed or Open,
    nothing else.  From either state a selection (a click on the VIEW
    button of a row) leads to Open and the modal shows the five fields
    of that row and nothing of what it showed before; a dismissal (the
    close button, or a click on the backdrop outside the detail
    surface) leads to Closed; every other event leaves the state and
    the displayed fields as they were. *)
Theorem detail_state_machine (db : Response (list NewStudent))
    (served : Page) (events : list Event) (e : Event) :
  essential served → modal_complete served →
  detail served = Some Closed →
  detail (after toLowerCase db served []) = Some Closed
  ∧ (detail (after toLowerCase db served events) = Some Closed
     ∨ detail (after toLowerCase db served events) = Some Open)
  ∧ match selection e (after toLowerCase db served events) with
    | Some row =>
        detail (after toLowerCase db served (events ++ [e])) = Some Open
        ∧ detailView (after toLowerCase db served (events ++ [e]))
          = Some (row_view row)
    | None =>
        detail (after toLowerCase db served (events ++ [e]))
        = (if dismissal e then Some Closed
           else detail (after toLowerCase db served events))
        ∧ detailView (after toLowerCase db served (events ++ [e]))
          = detailView (after toLowerCase db served events)
    end.
Proof.
  intros Hess Hmodal Hclosed.
  destruct (onDOMContentLoaded_ready db served Hess Hmodal)
    as (Hready & Hdetail & _).
  pose proof (foldl_dispatch_ready events _ Hready) as Hnow.
  unfold after. rewrite foldl_app. simpl.
  split; [by rewrite Hdetail|]. split.
  - destruct Hnow as [([c Hc] & _) _]. unfold detail. rewrite Hc. simpl.
    destruct (decide ("hidden" ∈ c)); auto.
  - by apply dispatch_ready.
Qed.

(** C8. For every record, at any position of the table and whatever
    the modal showed before, opening the modal on the record's row
    shows the display name [fname + " " + lname], the strand, the
    decimal numeral of the grade level, the semester and the enrollment
    status; for Ana Cruz, ABM, 12, 2nd, Enrolled these are "Ana Cruz",
    "ABM", "12", "2nd", "Enrolled". *)
Theorem openStudentModal_projection :
  (∀ (index : nat) (s : NewStudent) (p : Page)
     (classes : option (gset string)) (n0 s0 y0 t0 st0 : string),
     detailView
       (openStudentModal (student_row index s)
          (with_modal classes (Some n0) (Some s0) (Some y0) (Some t0)
             (Some st0) p))
     = Some {| displayName := fname s +:+ " " +:+ lname s;
               track := strand s;
               level := Number_toString (gradeLevel s);
               term := semester s;
               status := enrollment_status s |})
  ∧ (∀ (students : list NewStudent) (i : nat) (s : NewStudent) (p : Page),
       students !! i = Some s →
       selection (ClickTable true (Some i)) (populateTable students p).2
       = Some (student_row i s))
  ∧ detailView
      (dispatch toLowerCase (ClickTable true (Some 1))
         (onDOMContentLoaded (Data [jane_doe; ana_cruz]) served_page).2)
    = Some {| displayName := "Ana Cruz"; track := "ABM"; level := "12";
              term := "2nd"; status := "Enrolled" |}.
Proof.
  split; [|split].
  - intros. reflexivity.
  - intros students i s p Hs. simpl. by rewrite list_lookup_imap, Hs.
  - by vm_compute.
Qed.

(** C10. When the table body, the search box or one of the three
    selects is missing, the listener returns at once and without an
    error: no query is sent, no listener is added, and no element of
    the page is changed; the one trace is a message on the console. *)
Theorem onDOMContentLoaded_missing_control
    (db : Response (list NewStudent)) (p : Page) :
  studentTableBody p = None ∨ searchInput p = None ∨ filterStrand p = None
  ∨ filterYear p = None ∨ filterSemester p = None →
  ∃ p',
    onDOMContentLoaded db p = (Ok (), p')
    ∧ requests p' = requests p
    ∧ listeners p' = listeners p
    ∧ allStudents p' = allStudents p
    ∧ studentTableBody p' = studentTableBody p
    ∧ (searchInput p', filterStrand p', filterYear p', filterSemester p')
      = (searchInput p, filterStrand p, filterYear p, filterSemester p)
    ∧ modal_part p' = modal_part p
    ∧ console p'
      = console p
        ++ [(ErrorLevel,
             "Failed to find one or more essential elements. Script will not run.")].
Proof.
  intros Hmissing. eexists. split.
  - apply onDOMContentLoaded_guard.
    intros ([? H1] & [? H2] & [? H3] & [? H4] & [? H5]).
    destruct Hmissing as [H|[H|[H|[H|H]]]]; congruence.
  - by repeat split.
Qed.

End Modal.

Lemma served_page_essential : Students.essential Students.served_page.
Proof. unfold Students.essential. simpl. eauto 10. Qed.

Lemma served_page_modal_complete : Students.modal_complete Students.served_page.
Proof. unfold Students.modal_complete. simpl. eauto 10. Qed.

Lemma detail_state_machine_witness :
  Students.detail
    (Students.after ascii_toLowerCase
       (Data [Students.jane_doe; Students.ana_cruz]) Students.served_page
       ([Students.TypeSearch "cruz"; Students.ClickTable true (Some 1)]
        ++ [Students.ClickClose]))
  = Some Students.Closed.
Proof.
  apply (proj1 (proj2 (proj2
    (detail_state_machine ascii_toLowerCase
       (Data [Students.jane_doe; Students.ana_cruz]) Students.served_page
       [Students.TypeSearch "cruz"; Students.ClickTable true (Some 1)]
       Students.ClickClose
       served_page_essential served_page_modal_complete eq_refl)))).
Defined.

Lemma onDOMContentLoaded_missing_control_witness :
  ∃ p',
    Students.onDOMContentLoaded (Data [Students.jane_doe])
      (Students.with_controls None (Some "all") (Some "all") (Some "all")
         Students.served_page)
    = (Ok (), p')
    ∧ Students.requests p' = 0
    ∧ Students.listeners p' = []
    ∧ Students.studentTableBody p' = Some [].
Proof.
  destruct (onDOMContentLoaded_missing_control (Data [Students.jane_doe])
              (Students.with_controls None (Some "all") (Some "all")
                 (Some "all") Students.served_page))
    as (p' & Hrun & Hreq & Hls & _ & Hrows & _).
  - right. left. reflexivity.
  - exists p'. auto.
Defined.

(** ** A failing query *)

Section Outage.

Lemma dashboard_counts_failed (e : string)
    (recent : Response (list Dashboard.NewStudent)) (page : Dashboard.Page) :
  Dashboard.onDOMContentLoaded
    {| Dashboard.counts_response := Failed e;
       Dashboard.recent_response := recent |} page
  = (Ok (),
     {| Dashboard.textContent := Dashboard.textContent page;
        Dashboard.recentRows := Dashboard.recentRows page;
        Dashboard.console :=
          Dashboard.console page
          ++ [(ErrorLevel, "Error loading dashboard data:")];
        Dashboard.requests :=
          Dashboard.requests page ++ [Dashboard.SelectCounts] |}).
Proof. reflexivity. Qed.

Lemma dashboard_recent_failed (students : list Dashboard.PartialStudent)
    (e : string) (page : Dashboard.Page) :
  Dashboard.onDOMContentLoaded
    {| Dashboard.counts_response := Data students;
       Dashboard.recent_response := Failed e |} page
  = (Ok (),
     {| Dashboard.textContent := Dashboard.textContent page;
        Dashboard.recentRows := Dashboard.recentRows page;
        Dashboard.console :=
          Dashboard.console page
          ++ [ (ErrorLevel, "Error fetching recent applications:");
               (ErrorLevel, "Error loading dashboard data:") ];
        Dashboard.requests :=
          Dashboard.requests page
          ++ [Dashboard.SelectCounts; Dashboard.SelectRecent] |}).
Proof.
  unfold Dashboard.onDOMContentLoaded, Dashboard.fetchAndProcessAllStudents,
    Dashboard.fetchRecentApplications, Dashboard.console_call,
    Dashboard.send, try_catch, bind, modify, throw. simpl.
  by rewrite <- !(assoc_L (++)).
Qed.

(** C2, as the scripts have it.  No failing query lets an error escape
    a listener.  On the roster page a failed query puts one row with an
    error message in place of the roster, and the listeners of the
    filters and of the modal are added all the same.  On the dashboard
    the tallies and the list of recent applications are rendered
    together or not at all: after a failed counts query the
    recent-applications query is not sent and the list stays as it was,
    and after a failed recent-applications query the counters stay as
    they were, although the counts were fetched. *)
Theorem failed_query_handling :
  (∀ e recent page,
     ∃ page',
       Dashboard.onDOMContentLoaded
         {| Dashboard.counts_response := Failed e;
            Dashboard.recent_response := recent |} page
       = (Ok (), page')
       ∧ Dashboard.recentRows page' = Dashboard.recentRows page
       ∧ Dashboard.requests page'
         = Dashboard.requests page ++ [Dashboard.SelectCounts])
  ∧ (∀ students e page,
       ∃ page',
         Dashboard.onDOMContentLoaded
           {| Dashboard.counts_response := Data students;
              Dashboard.recent_response := Failed e |} page
         = (Ok (), page')
         ∧ Dashboard.textContent page' = Dashboard.textContent page)
  ∧ (∀ e p, Students.essential p →
       ∃ p',
         Students.onDOMContentLoaded (Failed e) p = (Ok (), p')
         ∧ Students.studentTableBody p' = Some [Students.error_row]
         ∧ Students.listeners p'
           = Students.listeners p ++ Students.added_listeners p
         ∧ Students.modal_part p'
           = (Students.studentModal p, Students.closeModal p,
              Students.modalName p, Students.modalStrand p,
              Students.modalYear p, Students.modalSemester p,
              Students.modalStatus p,
              Students.listeners p ++ Students.added_listeners p)).
Proof.
  split; [|split].
  - intros e recent page. eexists.
    split; [apply dashboard_counts_failed | done].
  - intros students e page. eexists.
    split; [apply dashboard_recent_failed | done].
  - intros e p Hess. eexists.
    split; [by apply onDOMContentLoaded_essential | done].
Qed.

(** C2 as stated fails on the dashboard: the counts query answers (one
    STEM and one ABM student, one Pending and one Enrolled), the
    recent-applications query fails, and the page keeps every counter at
    the text it was served with and the list of recent applications
    empty, with no placeholder in it. *)
Lemma dashboard_sections_not_independent :
  ((Dashboard.tally_students [Dashboard.columns Dashboard.jane_doe;
                              Dashboard.columns Dashboard.ana_cruz]).1
     !! "STEM" = Some (Int 1))
  ∧ (Dashboard.onDOMContentLoaded Dashboard.recent_outage
       Dashboard.served_page).1 = Ok ()
  ∧ Dashboard.textContent
      (Dashboard.onDOMContentLoaded Dashboard.recent_outage
         Dashboard.served_page).2 !! Dashboard.stemCount = Some "0"
  ∧ Dashboard.textContent
      (Dashboard.onDOMContentLoaded Dashboard.recent_outage
         Dashboard.served_page).2
    = Dashboard.textContent Dashboard.served_page
  ∧ Dashboard.recentRows
      (Dashboard.onDOMContentLoaded Dashboard.recent_outage
         Dashboard.served_page).2 = Some [].
Proof. repeat split; by vm_compute. Qed.

End Outage.

(** ** Worked examples *)

Section Examples.

(** The two records of the spec's scenario, tallied. *)
Example tally_jane_ana :
  let counts :=
    Dashboard.tally_students
      [Dashboard.columns Dashboard.jane_doe;
       Dashboard.columns Dashboard.ana_cruz] in
  (Dashboard.counter counts.1 <$> Dashboard.strands) = [1; 1; 0; 0]
  ∧ (Dashboard.counter counts.2 <$> Dashboard.statuses) = [1; 1; 0].
Proof. by vm_compute. Qed.

(** A strand that names a property of [Object.prototype] passes the
    test [!== undefined]: the four counters stay as they are and the
    tally gains an own property of that name, holding NaN. *)
Example tally_inherited_key :
  Dashboard.tally_students
    [ {| Dashboard.p_strand := Some "toString";
         Dashboard.p_enrollment_status := Some "Pending" |} ]
  = (<["toString" := NaN]> Dashboard.strandCounts0,
     <["Pending" := Int 1]> Dashboard.statusCounts0).
Proof. reflexivity. Qed.

(** A missing strand, an empty one and an unknown one change nothing. *)
Example tally_skipped :
  Dashboard.tally_students
    [ {| Dashboard.p_strand := None; Dashboard.p_enrollment_status := None |};
      {| Dashboard.p_strand := Some EmptyString;
         Dashboard.p_enrollment_status := Some "pending" |};
      {| Dashboard.p_strand := Some "GAS";
         Dashboard.p_enrollment_status := Some "Approved" |} ]
  = (Dashboard.strandCounts0, Dashboard.statusCounts0).
Proof. reflexivity. Qed.

(** The dashboard with both queries answered. *)
Example dashboard_rendered :
  let page :=
    (Dashboard.onDOMContentLoaded
       {| Dashboard.counts_response :=
            Data [Dashboard.columns Dashboard.jane_doe;
                  Dashboard.columns Dashboard.ana_cruz];
          Dashboard.recent_response :=
            Dashboard.serve Dashboard.merge_store
              [Dashboard.ana_cruz; Dashboard.jane_doe]
              Dashboard.SelectRecent |}
       Dashboard.served_page).2 in
  Dashboard.textContent page !! Dashboard.stemCount = Some "1"
  ∧ Dashboard.textContent page !! Dashboard.tvlCount = Some "0"
  ∧ Dashboard.textContent page !! Dashboard.enrolledCount = Some "1"
  ∧ Dashboard.recentRows page
    = Some [ Dashboard.generateTableRow Dashboard.jane_doe;
             Dashboard.generateTableRow Dashboard.ana_cruz ]
  ∧ Dashboard.console page = [].
Proof. by vm_compute. Qed.

(** The markup built for Jane Doe has the length and the sum of
    character codes of the template literals of the source with her
    fields filled in; likewise the cell of the error row. *)
Example markup_matches_templates :
  (String.length (Dashboard.generateTableRow Dashboard.jane_doe),
   code_sum (Dashboard.generateTableRow Dashboard.jane_doe)) = (553, 38858%N)
  ∧ (String.length
       (Students.innerHTML (Students.student_row 0 Students.jane_doe)),
     code_sum (Students.innerHTML (Students.student_row 0 Students.jane_doe)))
    = (552, 39737%N)
  ∧ (String.length (Students.innerHTML Students.error_row),
     code_sum (Students.innerHTML Students.error_row)) = (87, 7544%N).
Proof. by vm_compute. Qed.

(** Choosing the strand STEM shows Jane Doe and hides Ana Cruz. *)
Example filter_strand_STEM :
  Students.shown (Students.filtered_rows ascii_toLowerCase EmptyString "STEM" "all"
           "all" [Students.jane_doe; Students.ana_cruz]
           Students.served_page)
  = Some [true; false].
Proof. by vm_compute. Qed.

(** The search text is folded to lower case, and so is the name. *)
Example filter_search_case :
  Students.shown (Students.filtered_rows ascii_toLowerCase "A CR" "all" "all" "all"
           [Students.jane_doe; Students.ana_cruz] Students.served_page)
  = Some [false; true].
Proof. by vm_compute. Qed.

(** The year is compared as a string: the numerals [12.0] and [012]
    do not select grade level 12. *)
Example filter_year_is_string :
  Students.shown (Students.filtered_rows ascii_toLowerCase EmptyString "all" "12"
           "all" [Students.jane_doe; Students.ana_cruz]
           Students.served_page) = Some [false; true]
  ∧ Students.shown (Students.filtered_rows ascii_toLowerCase EmptyString "all"
             "12.0" "all" [Students.jane_doe; Students.ana_cruz]
             Students.served_page) = Some [false; false]
  ∧ Students.shown (Students.filtered_rows ascii_toLowerCase EmptyString "all"
             "012" "all" [Students.jane_doe; Students.ana_cruz]
             Students.served_page) = Some [false; false].
Proof. by vm_compute. Qed.

(** The semester is compared with its case. *)
Example filter_semester_case :
  Students.shown (Students.filtered_rows ascii_toLowerCase EmptyString "all" "all"
           "2ND" [Students.jane_doe; Students.ana_cruz]
           Students.served_page) = Some [false; false].
Proof. by vm_compute. Qed.

(** One space is found between first and last name; two spaces are
    found in neither name, where a trimmed search text would find
    both. *)
Example filter_whitespace :
  Students.shown (Students.filtered_rows ascii_toLowerCase " " "all" "all" "all"
           [Students.jane_doe; Students.ana_cruz] Students.served_page)
  = Some [true; true]
  ∧ Students.shown (Students.filtered_rows ascii_toLowerCase "  " "all" "all" "all"
             [Students.jane_doe; Students.ana_cruz] Students.served_page)
    = Some [false; false].
Proof. by vm_compute. Qed.

(** After a failed query the one row of the table is the error row; it
    has no [data-*] attribute, so the served controls show it and any
    chosen strand hides it. *)
Example filter_error_row :
  Students.shown (Students.studentTableBody
           (Students.dispatch ascii_toLowerCase (Students.ChooseStrand "STEM")
              (Students.onDOMContentLoaded (Failed "FetchError")
                 Students.served_page).2))
  = Some [false].
Proof. by vm_compute. Qed.

End Examples.


(** ** Rendering the dashboard *)

Section Rendering.
Import Dashboard.

Lemma bind_Ok {S A B} (m : Script S A) (k : A → Script S B) (s s' : S) (a : A) :
  m s = (Ok a, s') → bind m k s = k a s'.
Proof. intros Hm. unfold bind. by rewrite Hm. Qed.

Lemma updateElementText_Ok (selector text : string) (p : Page) :
  updateElementText selector text p
  = (Ok (), (updateElementText selector text p).2).
Proof. unfold updateElementText. by destruct (textContent p !! selector). Qed.

Lemma update_count_Ok (selector key : string) (counts : gmap string Num)
    (n : nat) (p : Page) :
  counts !! key = Some (Int n) →
  update_count selector counts key p
  = (Ok (), (updateElementText selector (pretty n) p).2).
Proof.
  intros Hkey. unfold update_count, count_toString. rewrite Hkey.
  unfold bind, ret. simpl. apply updateElementText_Ok.
Qed.

(** One call of [updateElementText], field by field. *)
Lemma updateElementText_fields (selector text : string) (p : Page) :
  (∀ s, textContent (updateElementText selector text p).2 !! s
        = if decide (s = selector)
          then (λ _, text) <$> textContent p !! s
          else textContent p !! s)
  ∧ recentRows (updateElementText selector text p).2 = recentRows p
  ∧ requests (updateElementText selector text p).2 = requests p
  ∧ console (updateElementText selector text p).2
    = console p
      ++ (if textContent p !! selector is Some _ then []
          else [not_found selector]).
Proof.
  unfold updateElementText.
  destruct (textContent p !! selector) as [old|] eqn:Hsel; simpl.
  - repeat split; [|by rewrite app_nil_r]. intros s.
    destruct (decide (s = selector)) as [->|Hne].
    + by rewrite lookup_insert_eq, Hsel.
    + by rewrite lookup_insert_ne.
  - repeat split. intros s.
    destruct (decide (s = selector)) as [->|Hne]; [by rewrite Hsel | done].
Qed.

(** A run of calls on selectors that are all different. *)
Lemma update_texts_fields (updates : list (string * string)) (p : Page) :
  NoDup updates.*1 →
  (∀ s t, (s, t) ∈ updates →
     textContent (update_texts updates p) !! s
     = (λ _, t) <$> textContent p !! s)
  ∧ (∀ s, s ∉ updates.*1 →
       textContent (update_texts updates p) !! s = textContent p !! s)
  ∧ recentRows (update_texts updates p) = recentRows p
  ∧ requests (update_texts updates p) = requests p
  ∧ console (update_texts updates p)
    = console p
      ++ (not_found <$> filter (λ s, textContent p !! s = None) updates.*1).
Proof.
  revert p. induction updates as [|[sel txt] updates IH]; intros p Hnd.
  - simpl. rewrite app_nil_r. repeat split; try done.
    intros s t Hin. by apply elem_of_nil in Hin.
  - rewrite fmap_cons in Hnd. apply NoDup_cons in Hnd as [Hfresh Hnd].
    destruct (updateElementText_fields sel txt p) as (Htext & Hrows & Hreq & Hcon).
    destruct (IH (updateElementText sel txt p).2 Hnd)
      as (IHin & IHout & IHrows & IHreq & IHcon).
    unfold update_texts in *. simpl foldl.
    split; [|split; [|split; [|split]]].
    + intros s t [[= -> ->]|Hin]%elem_of_cons.
      * rewrite (IHout sel Hfresh), Htext. by rewrite decide_True.
      * rewrite (IHin s t Hin), Htext. rewrite decide_False; [done|].
        intros ->. apply Hfresh. apply list_elem_of_fmap. by exists (sel, t).
    + intros s Hs. rewrite fmap_cons in Hs.
      apply not_elem_of_cons in Hs as [Hne Hs].
      rewrite (IHout s Hs), Htext. by rewrite decide_False.
    + by rewrite IHrows.
    + by rewrite IHreq.
    + rewrite IHcon, Hcon, fmap_cons, filter_cons. simpl.
      rewrite <- (assoc_L (++)). f_equal.
      assert (filter (λ s, textContent (updateElementText sel txt p).2 !! s = None)
                updates.*1
              = filter (λ s, textContent p !! s = None) updates.*1) as ->.
      { apply list_filter_iff. intros s. rewrite Htext.
        destruct (decide (s = sel)); [|done].
        by destruct (textContent p !! s). }
      destruct (textContent p !! sel) eqn:Hsel.
      * by rewrite decide_False.
      * by rewrite decide_True.
Qed.

Lemma count_texts_NoDup (students : list PartialStudent) :
  NoDup (count_texts students).*1.
Proof.
  assert ((count_texts students).*1
          = [ stemCount; abmCount; tvlCount; humssCount;
              pendingCount; enrolledCount; rejectedCount ]) as ->
    by reflexivity.
  apply (bool_decide_unpack (NoDup _)). by vm_compute.
Qed.

Lemma count_texts_eq (students : list PartialStudent) :
  count_texts students
  = [ (stemCount, pretty (occurrences "STEM" (p_strand <$> students)));
      (abmCount, pretty (occurrences "ABM" (p_strand <$> students)));
      (tvlCount, pretty (occurrences "TVL-ICT" (p_strand <$> students)));
      (humssCount, pretty (occurrences "HUMSS" (p_strand <$> students)));
      (pendingCount,
       pretty (occurrences "Pending" (p_enrollment_status <$> students)));
      (enrolledCount,
       pretty (occurrences "Enrolled" (p_enrollment_status <$> students)));
      (rejectedCount,
       pretty (occurrences "Rejected" (p_enrollment_status <$> students))) ].
Proof. reflexivity. Qed.

Lemma update_texts_cons (u : string * string) (us : list (string * string))
    (p : Page) :
  update_texts (u :: us) p = update_texts us (updateElementText u.1 u.2 p).2.
Proof. reflexivity. Qed.

(** The listener when both queries answer: the two requests, the seven
    calls of [updateElementText], and the rows of the table. *)
Lemma onDOMContentLoaded_answered (students : list PartialStudent)
    (recent : list NewStudent) (page : Page) :
  onDOMContentLoaded
    {| counts_response := Data students; recent_response := Data recent |} page
  = (Ok (),
     show_recent recent (update_texts (count_texts students) (requested page))).
Proof.
  assert (∀ k, k ∈ strands →
            (tally_students students).1 !! k
            = Some (Int (occurrences k (p_strand <$> students)))) as Hstrand
    by (intros; by apply tally_students_strand).
  assert (∀ k, k ∈ statuses →
            (tally_students students).2 !! k
            = Some (Int (occurrences k (p_enrollment_status <$> students))))
    as Hstatus by (intros; by apply tally_students_status).
  rewrite count_texts_eq, !update_texts_cons.
  unfold onDOMContentLoaded, try_catch.
  erewrite bind_Ok; [|reflexivity].
  erewrite bind_Ok; [|reflexivity].
  do 4 (erewrite bind_Ok;
        [|apply update_count_Ok, Hstrand; unfold strands;
          rewrite !elem_of_cons; auto 10]).
  do 3 (erewrite bind_Ok;
        [|apply update_count_Ok, Hstatus; unfold statuses;
          rewrite !elem_of_cons; auto 10]).
  reflexivity.
Qed.

Lemma count_texts_selectors (students : list PartialStudent) :
  (count_texts students).*1 = (strand_counters ++ status_counters).*1.
Proof. reflexivity. Qed.

Lemma show_recent_fields (recent : list NewStudent) (p : Page) :
  textContent (show_recent recent p) = textContent p
  ∧ console (show_recent recent p) = console p
  ∧ requests (show_recent recent p) = requests p
  ∧ recentRows (show_recent recent p)
    = (λ _, generateTableRow <$> recent) <$> recentRows p.
Proof.
  unfold show_recent. destruct (recentRows p) eqn:Hrows; simpl; by rewrite ?Hrows.
Qed.

(** X1. Whatever the store answers to either query and whatever elements
    the page has, the dashboard listener ends without an error. *)
Theorem dashboard_listener_never_throws (db : Supabase) (page : Page) :
  (onDOMContentLoaded db page).1 = Ok ().
Proof.
  destruct db as [[students|e] recent].
  - destruct recent as [recent|e].
    + by rewrite onDOMContentLoaded_answered.
    + by rewrite dashboard_recent_failed.
  - by rewrite dashboard_counts_failed.
Qed.

(** X2. When both queries answer, every counter element the page has
    shows the decimal numeral of the number of rows with its strand or
    status, a counter element the page lacks is not created, no other
    text of the page is touched, and the markup assigned to the table of
    recent applications, when the page has it, is made of the markup
    [generateTableRow] builds for each returned record, in the order the
    store returned them (for grade levels that are safe integers, which
    print as their decimal numeral). *)
Theorem dashboard_shows_counts (students : list PartialStudent)
    (recent : list NewStudent) (page : Page) :
  ∃ page',
    onDOMContentLoaded
      {| counts_response := Data students; recent_response := Data recent |}
      page
    = (Ok (), page')
    ∧ (∀ c, c ∈ strand_counters →
         textContent page' !! c.1
         = (λ _, pretty (occurrences c.2 (p_strand <$> students)))
             <$> textContent page !! c.1)
    ∧ (∀ c, c ∈ status_counters →
         textContent page' !! c.1
         = (λ _, pretty (occurrences c.2 (p_enrollment_status <$> students)))
             <$> textContent page !! c.1)
    ∧ (∀ s, s ∉ (strand_counters ++ status_counters).*1 →
         textContent page' !! s = textContent page !! s)
    ∧ (Forall (λ s, safe_integer (gradeLevel s)) recent →
       recentRows page'
       = (λ _, generateTableRow <$> recent) <$> recentRows page).
Proof.
  eexists. split; [apply onDOMContentLoaded_answered|].
  destruct (show_recent_fields recent
              (update_texts (count_texts students) (requested page)))
    as (-> & _ & _ & ->).
  destruct (update_texts_fields (count_texts students) (requested page)
              (count_texts_NoDup students))
    as (Hin & Hout & -> & _ & _).
  split; [|split; [|split]]; [| | |done].
  - intros c Hc. apply (Hin c.1). unfold count_texts.
    apply elem_of_app. left. apply list_elem_of_fmap. by exists c.
  - intros c Hc. apply (Hin c.1). unfold count_texts.
    apply elem_of_app. right. apply list_elem_of_fmap. by exists c.
  - intros s Hs. apply Hout. by rewrite count_texts_selectors.
Qed.

(** X3. When both queries answer, the listener writes to the console one
    warning for each counter element the page lacks, naming its selector,
    in the order of the seven updates, and nothing else. *)
Theorem dashboard_warns_missing_counters (students : list PartialStudent)
    (recent : list NewStudent) (page : Page) :
  console
    (onDOMContentLoaded
       {| counts_response := Data students; recent_response := Data recent |}
       page).2
  = console page
    ++ (not_found
          <$> filter (λ s, textContent page !! s = None)
                (strand_counters ++ status_counters).*1).
Proof.
  rewrite onDOMContentLoaded_answered. cbn [snd].
  destruct (show_recent_fields recent
              (update_texts (count_texts students) (requested page)))
    as (_ & -> & _).
  destruct (update_texts_fields (count_texts students) (requested page)
              (count_texts_NoDup students))
    as (_ & _ & _ & _ & ->).
  by rewrite count_texts_selectors.
Qed.

(** X4. The listener sends the counts query first and exactly once; it
    sends the recent-applications query, once, if and only if the counts
    query answered; it never repeats a query. *)
Theorem dashboard_requests (db : Supabase) (page : Page) :
  requests (onDOMContentLoaded db page).2
  = requests page
    ++ SelectCounts
       :: (if counts_response db is Data _ then [SelectRecent] else []).
Proof.
  destruct db as [[students|e] recent]; simpl counts_response.
  - destruct recent as [recent|e].
    + rewrite onDOMContentLoaded_answered. cbn [snd].
      destruct (show_recent_fields recent
                  (update_texts (count_texts students) (requested page)))
        as (_ & _ & -> & _).
      destruct (update_texts_fields (count_texts students) (requested page)
                  (count_texts_NoDup students))
        as (_ & _ & _ & -> & _).
      cbn [requested send modify snd requests]. by rewrite <- (assoc_L (++)).
    + by rewrite dashboard_recent_failed.
  - by rewrite dashboard_counts_failed.
Qed.

End Rendering.

(** ** More on the tallies and on the recent applications *)

Section TallyKeys.
Import Dashboard.

Lemma occurrences_app (k : string) (c1 c2 : list (option string)) :
  occurrences k (c1 ++ c2) = occurrences k c1 + occurrences k c2.
Proof. unfold occurrences. by rewrite filter_app, length_app. Qed.

(** X5. Tallying two batches of rows one after the other gives, for every
    strand and every status, the sum of the counters of the two batches
    tallied apart. *)
Theorem tally_students_app (batch1 batch2 : list PartialStudent) :
  (∀ k, k ∈ strands →
     counter (tally_students (batch1 ++ batch2)).1 k
     = counter (tally_students batch1).1 k
       + counter (tally_students batch2).1 k)
  ∧ (∀ k, k ∈ statuses →
       counter (tally_students (batch1 ++ batch2)).2 k
       = counter (tally_students batch1).2 k
         + counter (tally_students batch2).2 k).
Proof.
  split; intros k Hk; unfold counter.
  - rewrite !tally_students_strand by done.
    by rewrite fmap_app, occurrences_app.
  - rewrite !tally_students_status by done.
    by rewrite fmap_app, occurrences_app.
Qed.

Lemma Object_prototype_nonempty (k : string) :
  k ∈ Object_prototype → k ≠ EmptyString.
Proof.
  intros Hk ->. revert Hk. apply (bool_decide_unpack (_ ∉ _)). by vm_compute.
Qed.

(** A key that is no own property: it appears, with NaN, exactly when the
    value names an inherited property other than [__proto__]. *)
Lemma tally_lookup_None (m : gmap string Num) (v : option string) (k : string) :
  m !! k = None →
  tally m v !! k
  = if decide (v = Some k ∧ k ∈ Object_prototype ∧ k ≠ "__proto__")
    then Some NaN else None.
Proof.
  intros Hm.
  destruct (decide (v = Some k ∧ k ∈ Object_prototype ∧ k ≠ "__proto__"))
    as [(-> & Hin & Hne)|Hno].
  - rewrite tally_Some, Hm. unfold tally_value.
    rewrite (bool_decide_eq_true_2 (k ≠ EmptyString))
      by by apply Object_prototype_nonempty.
    rewrite (bool_decide_eq_true_2 (k ∈ Object_prototype)) by done.
    rewrite orb_true_r. cbn [andb].
    destruct (decide (k = "__proto__")); [done|]. apply lookup_insert_eq.
  - destruct (decide (v = Some k)) as [->|Hne]; [|by rewrite tally_lookup_ne].
    rewrite tally_Some, Hm. unfold tally_value.
    destruct (bool_decide (k ≠ EmptyString)); cbn [andb]; [|done].
    destruct (bool_decide_reflect (k ∈ Object_prototype)) as [Hin|Hout];
      rewrite ?orb_true_r, ?orb_false_r; cbn [bool_decide andb orb].
    + destruct (decide (k = "__proto__")); [done|]. by destruct Hno.
    + rewrite bool_decide_eq_false_2; [done|]. by intros [? ?].
Qed.

Lemma tally_lookup_NaN (m : gmap string Num) (v : option string) (k : string) :
  m !! k = Some NaN → tally m v !! k = Some NaN.
Proof.
  intros Hm. destruct (decide (v = Some k)) as [->|Hne].
  - rewrite tally_Some, Hm. unfold tally_value. simpl.
    destruct (bool_decide (k ≠ EmptyString)); simpl; [|done].
    apply lookup_insert_eq.
  - by rewrite tally_lookup_ne.
Qed.

Lemma foldl_tally_student_columns (students : list PartialStudent)
    (acc : gmap string Num * gmap string Num) :
  foldl tally_student acc students
  = (foldl tally acc.1 (p_strand <$> students),
     foldl tally acc.2 (p_enrollment_status <$> students)).
Proof.
  revert acc. induction students as [|s students IH]; intros acc.
  - by destruct acc.
  - simpl. by rewrite IH.
Qed.

Lemma foldl_tally_NaN (column : list (option string)) (m : gmap string Num)
    (k : string) :
  m !! k = Some NaN → foldl tally m column !! k = Some NaN.
Proof.
  revert m. induction column as [|v column IH]; intros m Hm; [done|].
  simpl. apply IH. by apply tally_lookup_NaN.
Qed.

Lemma foldl_tally_None (column : list (option string)) (m : gmap string Num)
    (k : string) :
  m !! k = None →
  foldl tally m column !! k
  = if decide (Some k ∈ column ∧ k ∈ Object_prototype ∧ k ≠ "__proto__")
    then Some NaN else None.
Proof.
  revert m. induction column as [|v column IH]; intros m Hm.
  - cbn [foldl]. rewrite Hm.
    destruct (decide (Some k ∈ [] ∧ k ∈ Object_prototype ∧ k ≠ "__proto__"))
      as [(Hin & _)|]; [|done].
    by apply elem_of_nil in Hin.
  - cbn [foldl]. pose proof (tally_lookup_None m v k Hm) as Hstep.
    destruct (decide (Some k ∈ v :: column ∧ k ∈ Object_prototype
                      ∧ k ≠ "__proto__")) as [(Hc & Hin & Hne)|Hnc].
    + destruct (decide (v = Some k)) as [->|Hv].
      * apply foldl_tally_NaN. rewrite Hstep. by rewrite decide_True.
      * apply elem_of_cons in Hc as [Hc|Hc]; [congruence|].
        rewrite IH.
        -- by rewrite decide_True.
        -- rewrite Hstep. rewrite decide_False; [done|]. by intros (? & _).
    + rewrite IH.
      * rewrite decide_False; [done|].
        intros (Hc & Hin & Hne). apply Hnc. split; [by right | done].
      * rewrite Hstep. rewrite decide_False; [done|].
        intros (-> & Hin & Hne). apply Hnc. split; [by left | done].
Qed.

Lemma strandCounts0_other (k : string) :
  k ∉ strands → strandCounts0 !! k = None.
Proof.
  unfold strands, strandCounts0. rewrite !not_elem_of_cons.
  intros (? & ? & ? & ? & _). by rewrite !lookup_insert_ne.
Qed.

Lemma statusCounts0_other (k : string) :
  k ∉ statuses → statusCounts0 !! k = None.
Proof.
  unfold statuses, statusCounts0. rewrite !not_elem_of_cons.
  intros (? & ? & ? & _). by rewrite !lookup_insert_ne.
Qed.

(** X6. Besides the four strands, the strand tally holds a key exactly
    when some row's strand names a property that object literals inherit
    from [Object.prototype], [__proto__] excepted, and that key holds
    NaN; any other unknown strand adds no key.  Likewise the status
    tally. *)
Theorem tally_students_other_keys (students : list PartialStudent) (k : string) :
  (k ∉ strands →
     (tally_students students).1 !! k
     = if decide (Some k ∈ p_strand <$> students
                  ∧ k ∈ Object_prototype ∧ k ≠ "__proto__")
       then Some NaN else None)
  ∧ (k ∉ statuses →
       (tally_students students).2 !! k
       = if decide (Some k ∈ p_enrollment_status <$> students
                    ∧ k ∈ Object_prototype ∧ k ≠ "__proto__")
         then Some NaN else None).
Proof.
  unfold tally_students. rewrite foldl_tally_student_columns. simpl.
  split; intros Hk.
  - by apply foldl_tally_None, strandCounts0_other.
  - by apply foldl_tally_None, statusCounts0_other.
Qed.

(** X7. [fetchRecentApplications] sends one query, and when the store
    answers that very query over a table, ordering by last name as
    [ORDER BY lname DESC] promises, the rows returned are the head of the
    ordered table: together with the rows left out they make up the
    table, every row returned has a last name at least as large as every
    row left out, and the rows left out are those beyond the first five,
    none for a table of at most five rows. *)
Theorem fetchRecentApplications_head
    (orderBy : string → bool → list NewStudent → list NewStudent)
    (table : list NewStudent) (counts : Response (list PartialStudent))
    (page : Page) :
  orders_by_lname_desc (orderBy "lname" false) →
  ∃ sent recent rest page',
    fetchRecentApplications
      {| counts_response := counts;
         recent_response := serve orderBy table sent |} page
    = (Ok recent, page')
    ∧ requests page' = requests page ++ [sent]
    ∧ recent ++ rest ≡ₚ table
    ∧ (∀ a b, a ∈ recent → b ∈ rest → lname_desc a b)
    ∧ length rest = length table - 5.
Proof.
  intros Horder. destruct (Horder table) as [Hperm Hsorted].
  apply Sorted_StronglySorted in Hsorted; [|apply lname_desc_Transitive].
  exists SelectRecent, (take 5 (orderBy "lname" false table)),
    (drop 5 (orderBy "lname" false table)). eexists.
  split; [reflexivity|]. split; [reflexivity|]. split; [|split].
  - by rewrite take_drop.
  - rewrite <- (take_drop 5 (orderBy "lname" false table)) in Hsorted.
    intros a b Ha Hb.
    by apply (StronglySorted_app_1_elem_of _ _ _ _ _ Hsorted).
  - by rewrite length_drop, Hperm.
Qed.

Lemma fetchRecentApplications_head_witness :
  ∃ sent recent rest page',
    fetchRecentApplications
      {| counts_response := Data [];
         recent_response := serve reversing_store seven_rows sent |}
      served_page
    = (Ok recent, page')
    ∧ requests page' = requests served_page ++ [sent]
    ∧ recent ++ rest ≡ₚ seven_rows
    ∧ (∀ a b, a ∈ recent → b ∈ rest → lname_desc a b)
    ∧ length rest = length seven_rows - 5.
Proof.
  apply (fetchRecentApplications_head reversing_store seven_rows (Data [])
           served_page).
  apply reversing_store_spec.
Defined.

End TallyKeys.

(** ** More on the filter and the events of students.ts *)

Section Events.
Import Students.

Variable toLowerCase : string → string.

Lemma filter_row_undisplayed (q st yr sem : string) (r : Row) :
  filter_row toLowerCase q st yr sem r
  = filter_row toLowerCase q st yr sem (undisplayed r)
  ∧ undisplayed (filter_row toLowerCase q st yr sem r) = undisplayed r.
Proof.
  unfold filter_row, undisplayed, dataset_or, set_display. simpl.
  split; by destruct (_ && _).
Qed.

Lemma filter_row_idem (q st yr sem : string) (r : Row) :
  filter_row toLowerCase q st yr sem (filter_row toLowerCase q st yr sem r)
  = filter_row toLowerCase q st yr sem r.
Proof.
  destruct (filter_row_undisplayed q st yr sem r) as [Hnorm Hsame].
  destruct (filter_row_undisplayed q st yr sem
              (filter_row toLowerCase q st yr sem r)) as [-> _].
  by rewrite Hsame, <- Hnorm.
Qed.

(** X8. Running [filterTable] again without touching a control changes
    nothing. *)
Theorem filterTable_idempotent (p : Page) :
  filterTable toLowerCase (filterTable toLowerCase p)
  = filterTable toLowerCase p.
Proof.
  unfold filterTable.
  destruct (searchInput p) as [q|] eqn:Hq; [|by rewrite Hq].
  destruct (filterStrand p) as [st|] eqn:Hst; [|by rewrite Hq, Hst].
  destruct (filterYear p) as [yr|] eqn:Hyr; [|by rewrite Hq, Hst, Hyr].
  destruct (filterSemester p) as [sem|] eqn:Hsem;
    [|by rewrite Hq, Hst, Hyr, Hsem].
  destruct (studentTableBody p) as [rows|] eqn:Hrows;
    [|by rewrite Hq, Hst, Hyr, Hsem, Hrows].
  simpl. rewrite Hq, Hst, Hyr, Hsem. unfold with_rows. simpl. f_equal. f_equal.
  rewrite <- list_fmap_compose. apply list_fmap_ext.
  intros i r _. apply filter_row_idem.
Qed.

(** What [filterTable] leaves alone. *)
Lemma filterTable_fields (p : Page) :
  table_undisplayed (filterTable toLowerCase p)
  = table_undisplayed p
  ∧ controls (filterTable toLowerCase p) = controls p
  ∧ modal_part (filterTable toLowerCase p) = modal_part p
  ∧ script_part (filterTable toLowerCase p) = script_part p.
Proof.
  unfold table_undisplayed, filterTable.
  destruct (searchInput p) as [q|] eqn:Hq; [|by repeat split].
  destruct (filterStrand p) as [st|] eqn:Hst; [|by repeat split].
  destruct (filterYear p) as [yr|] eqn:Hyr; [|by repeat split].
  destruct (filterSemester p) as [sem|] eqn:Hsem; [|by repeat split].
  destruct (studentTableBody p) as [rows|] eqn:Hrows;
    [|cbn; rewrite Hrows; by repeat split].
  unfold controls, modal_part, script_part, table_undisplayed. simpl.
  rewrite Hq, Hst, Hyr, Hsem. repeat split. f_equal.
  rewrite <- list_fmap_compose. apply list_fmap_ext.
  intros i r _. apply filter_row_undisplayed.
Qed.

(** X9. [filterTable] changes the [display] of rows and nothing else:
    the table keeps its rows, in their order, each with its data
    attributes, markup and classes; the controls, the modal, the listeners
    and the script's variables stay as they are. *)
Theorem filterTable_frame (p : Page) :
  table_undisplayed (filterTable toLowerCase p)
  = table_undisplayed p
  ∧ controls (filterTable toLowerCase p) = controls p
  ∧ modal_part (filterTable toLowerCase p) = modal_part p
  ∧ script_part (filterTable toLowerCase p) = script_part p.
Proof. apply filterTable_fields. Qed.

Lemma dispatch_filter_event (e : Event) (p : Page) :
  is_filter_event e = true →
  modal_part (dispatch toLowerCase e p) = modal_part p
  ∧ script_part (dispatch toLowerCase e p) = script_part p
  ∧ table_undisplayed (dispatch toLowerCase e p)
    = table_undisplayed p.
Proof.
  intros He. destruct e as [v|v|v|v| | |]; try discriminate; simpl;
    destruct (listening _ _ _); try done;
    match goal with
    | |- context [filterTable toLowerCase ?q] =>
        destruct (filterTable_fields q) as (-> & _ & -> & ->)
    end; done.
Qed.

Lemma dispatch_click_event (e : Event) (p : Page) :
  is_filter_event e = false →
  studentTableBody (dispatch toLowerCase e p) = studentTableBody p
  ∧ controls (dispatch toLowerCase e p) = controls p
  ∧ script_part (dispatch toLowerCase e p) = script_part p
  ∧ other_classes (dispatch toLowerCase e p) = other_classes p.
Proof.
  intros He.
  assert (∀ c : gset string,
            (c ∪ {["hidden"]}) ∖ {["hidden"]} = c ∖ {["hidden"]}) as Hadd.
  { intros c. apply set_eq. intros x.
    rewrite !elem_of_difference, elem_of_union. tauto. }
  assert (∀ c : gset string,
            (c ∖ {["hidden"]}) ∖ {["hidden"]} = c ∖ {["hidden"]}) as Hremove.
  { intros c. apply set_eq. intros x. rewrite !elem_of_difference. tauto. }
  destruct e as [v|v|v|v|onViewButton row| |onBackdrop]; try discriminate;
    simpl.
  - destruct (listening _ _ _); [|done].
    destruct onViewButton; [|done].
    destruct (row ≫= _) as [r|]; [|done].
    unfold other_classes, openStudentModal. simpl.
    repeat split. destruct (studentModal p); simpl; by rewrite ?Hremove.
  - destruct (listening _ _ _); [|done].
    unfold other_classes, hideModal. simpl.
    repeat split. destruct (studentModal p); simpl; by rewrite ?Hadd.
  - destruct (listening _ _ _ && onBackdrop); [|done].
    unfold other_classes, hideModal. simpl.
    repeat split. destruct (studentModal p); simpl; by rewrite ?Hadd.
Qed.

(** X15. The events of the filter controls leave the modal, its fields
    and the listeners alone and change no row beyond its [display]; the
    clicks leave the table, with the [display] of every row, and the
    values of the controls alone.  No event sends a query, writes to the
    console or changes [allStudents]. *)
Theorem dispatch_separation (e : Event) (p : Page) :
  (is_filter_event e = true →
     modal_part (dispatch toLowerCase e p) = modal_part p
     ∧ table_undisplayed (dispatch toLowerCase e p)
       = table_undisplayed p)
  ∧ (is_filter_event e = false →
       studentTableBody (dispatch toLowerCase e p) = studentTableBody p
       ∧ controls (dispatch toLowerCase e p) = controls p)
  ∧ script_part (dispatch toLowerCase e p) = script_part p.
Proof.
  split; [|split].
  - intros He. by destruct (dispatch_filter_event e p He) as (? & _ & ?).
  - intros He. by destruct (dispatch_click_event e p He) as (? & ? & _).
  - destruct (is_filter_event e) eqn:He.
    + by destruct (dispatch_filter_event e p He) as (_ & ? & _).
    + by destruct (dispatch_click_event e p He) as (_ & _ & ? & _).
Qed.

Lemma dispatch_listeners (e : Event) (p : Page) :
  listeners (dispatch toLowerCase e p) = listeners p.
Proof.
  destruct (is_filter_event e) eqn:He.
  - destruct (dispatch_filter_event e p He) as (Hmodal & _).
    unfold modal_part in Hmodal. congruence.
  - destruct e as [v|v|v|v|onViewButton row| |onBackdrop]; try discriminate;
      simpl.
    + destruct (listening _ _ _); [|done].
      destruct onViewButton; [|done]. by destruct (row ≫= _).
    + by destruct (listening _ _ _).
    + by destruct (listening _ _ _ && onBackdrop).
Qed.

(** What the listener leaves of the modal, on any page. *)
Lemma onDOMContentLoaded_modal (db : Response (list NewStudent)) (p : Page) :
  studentModal (onDOMContentLoaded db p).2 = studentModal p.
Proof.
  destruct (decide (essential p)) as [Hess|Hno].
  - by rewrite onDOMContentLoaded_essential.
  - by rewrite onDOMContentLoaded_guard.
Qed.

(** X13. Whatever the page and the events, the script only ever adds
    the class [hidden] to the modal or removes it: every other class of
    the modal is kept, and a page without the modal stays without it. *)
Theorem modal_other_classes_kept (db : Response (list NewStudent))
    (served : Page) (events : list Event) :
  other_classes (after toLowerCase db served events) = other_classes served.
Proof.
  unfold after.
  assert (other_classes (onDOMContentLoaded db served).2
          = other_classes served) as <-
    by (unfold other_classes; by rewrite onDOMContentLoaded_modal).
  generalize (onDOMContentLoaded db served).2. intros p.
  revert p. induction events as [|e events IH]; intros p; [done|].
  simpl. rewrite IH. destruct (is_filter_event e) eqn:He.
  - destruct (dispatch_filter_event e p He) as (Hmodal & _).
    unfold other_classes, modal_part in *. congruence.
  - by destruct (dispatch_click_event e p He) as (_ & _ & _ & ?).
Qed.

(** X14. On a page served without listeners of its own and lacking one
    of the five controls, the script having returned at the guard, no
    event changes the table or the modal: the page only records what the
    user puts into the controls it has. *)
Theorem page_inert_without_controls (db : Response (list NewStudent))
    (served : Page) (events : list Event) :
  listeners served = [] →
  studentTableBody served = None ∨ searchInput served = None
  ∨ filterStrand served = None ∨ filterYear served = None
  ∨ filterSemester served = None →
  studentTableBody (after toLowerCase db served events)
  = studentTableBody served
  ∧ modal_part (after toLowerCase db served events) = modal_part served
  ∧ script_part (after toLowerCase db served events)
    = script_part (onDOMContentLoaded db served).2.
Proof.
  intros Hnone Hmissing. unfold after.
  assert (¬ essential served) as Hno.
  { intros ([? H1] & [? H2] & [? H3] & [? H4] & [? H5]).
    destruct Hmissing as [H|[H|[H|[H|H]]]]; congruence. }
  assert (studentTableBody (onDOMContentLoaded db served).2
          = studentTableBody served
          ∧ modal_part (onDOMContentLoaded db served).2 = modal_part served
          ∧ listeners (onDOMContentLoaded db served).2 = [])
    as (<- & <- & Hls)
    by (by rewrite onDOMContentLoaded_guard).
  revert Hls. generalize (onDOMContentLoaded db served).2. intros p.
  revert p. induction events as [|e events IH]; intros p Hls; [done|].
  simpl. destruct (IH (dispatch toLowerCase e p)) as (-> & -> & ->).
  { by rewrite dispatch_listeners. }
  assert (∀ element type, listening p element type = false) as Hdeaf.
  { intros element type. unfold listening. rewrite Hls.
    apply bool_decide_eq_false_2. apply not_elem_of_nil. }
  destruct e; simpl; rewrite ?Hdeaf; done.
Qed.

End Events.

Lemma page_inert_without_controls_witness :
  Students.studentTableBody
    (Students.after ascii_toLowerCase (Data [Students.jane_doe])
       (Students.with_controls (Some EmptyString) None (Some "all")
          (Some "all") Students.served_page)
       [Students.TypeSearch "jane"; Students.ClickTable true (Some 0)])
  = Some []
  ∧ Students.modal_part
      (Students.after ascii_toLowerCase (Data [Students.jane_doe])
         (Students.with_controls (Some EmptyString) None (Some "all")
            (Some "all") Students.served_page)
         [Students.TypeSearch "jane"; Students.ClickTable true (Some 0)])
    = Students.modal_part Students.served_page.
Proof.
  destruct (page_inert_without_controls ascii_toLowerCase
              (Data [Students.jane_doe])
              (Students.with_controls (Some EmptyString) None (Some "all")
                 (Some "all") Students.served_page)
              [Students.TypeSearch "jane"; Students.ClickTable true (Some 0)])
    as (Hrows & Hmodal & _).
  - reflexivity.
  - right. right. left. reflexivity.
  - split; assumption.
Defined.

(** ** What the filter shows *)

Lemma append_assoc (a b c : string) : (a +:+ b) +:+ c = a +:+ b +:+ c.
Proof.
  induction a as [|x a IH]; [done|]. by rewrite !append_String, IH.
Qed.

Lemma includes_trans (s t u : string) :
  includes s t = true → includes t u = true → includes s u = true.
Proof.
  rewrite !includes_spec. intros (pre & post & ->) (pre' & post' & ->).
  exists (pre +:+ pre'), (post' +:+ post). by rewrite !append_assoc.
Qed.

Lemma includes_in_empty (q : string) :
  includes EmptyString q = true ↔ q = EmptyString.
Proof. destruct q; simpl; split; done. Qed.

(** A decimal numeral is never the word [all]. *)
Lemma pretty_N_go_ne_all (x : N) (s : string) :
  s ≠ "all" → pretty_N_go x s ≠ "all".
Proof.
  revert s. induction (N.lt_wf_0 x) as [x _ IH]; intros s Hs.
  destruct (decide (x = 0)%N) as [->|Hx]; [by rewrite pretty_N_go_0|].
  rewrite pretty_N_go_step by lia. apply IH.
  - apply N.div_lt; lia.
  - unfold pretty_N_char. by repeat case_match.
Qed.

Lemma Number_toString_ne_all (n : Z) : Number_toString n ≠ "all".
Proof.
  unfold Number_toString, pretty, pretty_Z.
  destruct n as [|x|x]; [done| |done].
  unfold pretty, pretty_positive, pretty, pretty_N.
  rewrite decide_False by done. by apply pretty_N_go_ne_all.
Qed.

Section Visibility.
Import Students.

Variable toLowerCase : string → string.

(** X11. Lengthening the search text never reveals a row: if the
    lowercased old text occurs in the lowercased new text, every row
    shown for the new text was shown for the old one, the selects being
    the same. *)
Theorem filterTable_narrowing (q q' st yr sem : string)
    (students : list NewStudent) (p : Page) :
  includes (toLowerCase q') (toLowerCase q) = true →
  ∃ old new,
    shown (filtered_rows toLowerCase q st yr sem students p) = Some old
    ∧ shown (filtered_rows toLowerCase q' st yr sem students p) = Some new
    ∧ length old = length new
    ∧ ∀ i, new !! i = Some true → old !! i = Some true.
Proof.
  intros Hsub. rewrite !filtered_rows_eq. simpl.
  eexists _, _. split; [done|]. split; [done|]. split.
  - by rewrite !length_fmap, !length_imap.
  - intros i. rewrite !list_lookup_fmap, !list_lookup_imap.
    destruct (students !! i) as [s|]; [|done]. simpl.
    intros [= Hnew]. f_equal.
    apply bool_decide_eq_true in Hnew. apply bool_decide_eq_true.
    apply filter_row_student in Hnew as (Hname & Hrest).
    apply filter_row_student. split; [|done].
    unfold name_matches in *. apply includes_spec.
    apply includes_spec in Hname. by apply (includes_trans _ _ _ Hname).
Qed.

End Visibility.

Lemma filterTable_narrowing_witness :
  ∃ old new,
    Students.shown
      (Students.filtered_rows ascii_toLowerCase "Cr" "all" "all" "all"
         [Students.jane_doe; Students.ana_cruz] Students.served_page)
    = Some old
    ∧ Students.shown
        (Students.filtered_rows ascii_toLowerCase "a CRUZ" "all" "all" "all"
           [Students.jane_doe; Students.ana_cruz] Students.served_page)
      = Some new
    ∧ length old = length new
    ∧ ∀ i, new !! i = Some true → old !! i = Some true.
Proof.
  apply (filterTable_narrowing ascii_toLowerCase "Cr" "a CRUZ").
  reflexivity.
Defined.

(** ** Loading the roster, and filtering after it *)

Section Loaded.
Import Students.

Variable toLowerCase : string → string.


(** X12. After a failed query the one row of the table is the error
    message, and a run of the filter treats it as a row without data
    attributes: for a [toLowerCase] that keeps the empty string empty, it
    stays shown only while the lowercased search text is empty and each
    select is on [all] or on an empty value, and is hidden otherwise. *)
Theorem error_row_filtered (e q st yr sem : string) (served : Page) :
  toLowerCase EmptyString = EmptyString →
  essential served →
  ∃ row,
    studentTableBody
      (filterTable toLowerCase
         (with_controls (Some q) (Some st) (Some yr) (Some sem)
            (onDOMContentLoaded (Failed e) served).2))
    = Some [row]
    ∧ undisplayed row = error_row
    ∧ (display row = EmptyString ∨ display row = "none")
    ∧ (display row = EmptyString
       ↔ toLowerCase q = EmptyString
         ∧ (st = "all" ∨ st = EmptyString)
         ∧ (yr = "all" ∨ yr = EmptyString)
         ∧ (sem = "all" ∨ sem = EmptyString)).
Proof.
  intros Hempty Hess. rewrite (onDOMContentLoaded_essential _ _ Hess).
  eexists. split; [reflexivity|].
  split;
    [by destruct (filter_row_undisplayed toLowerCase q st yr sem error_row)|].
  split; [apply filter_row_display|].
  unfold filter_row, dataset_or, error_row. simpl dataset.
  rewrite !lookup_empty. simpl default. rewrite Hempty.
  pose proof (includes_in_empty (toLowerCase q)) as Hinc.
  destruct (includes EmptyString (toLowerCase q)).
  - repeat case_bool_decide; simpl; intuition congruence.
  - simpl. intuition discriminate.
Qed.

End Loaded.

Lemma ascii_toLowerCase_empty : ascii_toLowerCase EmptyString = EmptyString.
Proof. reflexivity. Qed.


Lemma error_row_filtered_witness :
  ∃ row,
    Students.studentTableBody
      (Students.filterTable ascii_toLowerCase
         (Students.with_controls (Some EmptyString) (Some "STEM") (Some "all")
            (Some "all")
            (Students.onDOMContentLoaded (Failed "FetchError")
               Students.served_page).2))
    = Some [row]
    ∧ Students.display row = "none".
Proof.
  destruct (error_row_filtered ascii_toLowerCase "FetchError" EmptyString
              "STEM" "all" "all" Students.served_page
              ascii_toLowerCase_empty served_page_essential)
    as (row & Hrows & _ & [Hshown|Hhidden] & Hiff).
  - apply Hiff in Hshown as (_ & [Hst|Hst] & _); discriminate.
  - exists row. auto.
Defined.

(** ** The filter after any history of events *)

Section History.
Import Students.

Variable toLowerCase : string → string.

Lemma undisplayed_student_rows (students : list NewStudent) :
  undisplayed <$> imap student_row students = imap student_row students.
Proof. rewrite fmap_imap. by apply imap_ext. Qed.

Lemma filter_row_undisplayed_rows (q st yr sem : string) (rows : list Row) :
  filter_row toLowerCase q st yr sem <$> rows
  = filter_row toLowerCase q st yr sem <$> (undisplayed <$> rows).
Proof.
  rewrite <- list_fmap_compose. apply list_fmap_ext.
  intros i r _. apply filter_row_undisplayed.
Qed.

Lemma onDOMContentLoaded_loaded_with (students : list NewStudent)
    (served : Page) :
  essential served →
  loaded_with students (onDOMContentLoaded (Data students) served).2.
Proof.
  intros Hess. rewrite (onDOMContentLoaded_essential _ _ Hess).
  destruct Hess as (_ & Hq & Hst & Hyr & Hsem).
  split; [|split].
  - unfold essential. simpl. eauto 10.
  - unfold filters_listening, added_listeners. simpl.
    rewrite !elem_of_app, !elem_of_cons. auto 20.
  - unfold table_undisplayed. simpl. by rewrite undisplayed_student_rows.
Qed.

(** An event of a filter control on a loaded page. *)
Lemma dispatch_filter_loaded (students : list NewStudent) (e : Event)
    (p : Page) :
  is_filter_event e = true → loaded_with students p →
  ∃ q st yr sem,
    controls (dispatch toLowerCase e p) = (Some q, Some st, Some yr, Some sem)
    ∧ studentTableBody (dispatch toLowerCase e p)
      = Some (filter_row toLowerCase q st yr sem <$> imap student_row students)
    ∧ listeners (dispatch toLowerCase e p) = listeners p.
Proof.
  intros He (([rows Hrows] & [q Hq] & [st Hst] & [yr Hyr] & [sem Hsem])
             & (H1 & H2 & H3 & H4) & Htable).
  unfold table_undisplayed in Htable. rewrite Hrows in Htable.
  injection Htable as Htable.
  destruct e as [v|v|v|v| | |]; try discriminate; simpl;
    rewrite ?(listening_true _ _ _ H1), ?(listening_true _ _ _ H2),
      ?(listening_true _ _ _ H3), ?(listening_true _ _ _ H4);
    unfold filterTable, controls; simpl; rewrite Hq, Hst, Hyr, Hsem, Hrows;
    simpl; eexists _, _, _, _;
    (split; [reflexivity|]); (split; [|reflexivity]);
    by rewrite filter_row_undisplayed_rows, Htable.
Qed.

Lemma dispatch_loaded_with (students : list NewStudent) (e : Event)
    (p : Page) :
  loaded_with students p → loaded_with students (dispatch toLowerCase e p).
Proof.
  intros Hp. destruct (is_filter_event e) eqn:He.
  - destruct (dispatch_filter_loaded students e p He Hp)
      as (q & st & yr & sem & [= Hq Hst Hyr Hsem] & Hrows & Hls).
    destruct Hp as (_ & Hlistening & _).
    split; [|split].
    + unfold essential. rewrite Hq, Hst, Hyr, Hsem, Hrows. eauto 10.
    + unfold filters_listening. by rewrite Hls.
    + unfold table_undisplayed. rewrite Hrows. f_equal.
      rewrite <- list_fmap_compose.
      transitivity (undisplayed <$> imap student_row students);
        [|apply undisplayed_student_rows].
      apply list_fmap_ext. intros i r _. simpl.
      by destruct (filter_row_undisplayed toLowerCase q st yr sem r).
  - destruct (dispatch_click_event toLowerCase e p He)
      as (Hrows & [= Hq Hst Hyr Hsem] & _).
    destruct Hp as (Hess & Hlistening & Htable).
    split; [|split].
    + unfold essential. by rewrite Hrows, Hq, Hst, Hyr, Hsem.
    + unfold filters_listening. by rewrite dispatch_listeners.
    + unfold table_undisplayed. by rewrite Hrows.
Qed.

(** X10. What the table shows depends on the present values of the
    controls and on nothing that happened before: after any events, once
    a filter control has fired, the table is what [filterTable] makes of
    the freshly populated table for the values the four controls then
    have. *)
Theorem filter_forgets_history (students : list NewStudent) (served : Page)
    (events : list Event) (e : Event) :
  essential served → is_filter_event e = true →
  ∃ q st yr sem,
    controls (after toLowerCase (Data students) served (events ++ [e]))
    = (Some q, Some st, Some yr, Some sem)
    ∧ studentTableBody
        (after toLowerCase (Data students) served (events ++ [e]))
      = filtered_rows toLowerCase q st yr sem students served.
Proof.
  intros Hess He. unfold after. rewrite foldl_app. simpl.
  pose proof (onDOMContentLoaded_loaded_with students served Hess) as Hload.
  revert Hload. generalize (onDOMContentLoaded (Data students) served).2.
  intros p Hp.
  assert (loaded_with students
            (foldl (λ q e', dispatch toLowerCase e' q) p events)) as Hnow.
  { revert p Hp. induction events as [|e' events IH]; intros p Hp; [done|].
    simpl. apply IH. by apply dispatch_loaded_with. }
  destruct (dispatch_filter_loaded students e _ He Hnow)
    as (q & st & yr & sem & Hcontrols & Hrows & _).
  exists q, st, yr, sem. split; [done|].
  by rewrite Hrows, filtered_rows_eq.
Qed.

End History.

Lemma filter_forgets_history_witness :
  ∃ q st yr sem,
    Students.controls
      (Students.after ascii_toLowerCase
         (Data [Students.jane_doe; Students.ana_cruz]) Students.served_page
         ([Students.ChooseStrand "ABM"; Students.ClickTable true (Some 1);
           Students.ClickClose; Students.TypeSearch "zzz"]
          ++ [Students.ChooseStrand "STEM"]))
    = (Some q, Some st, Some yr, Some sem)
    ∧ Students.studentTableBody
        (Students.after ascii_toLowerCase
           (Data [Students.jane_doe; Students.ana_cruz]) Students.served_page
           ([Students.ChooseStrand "ABM"; Students.ClickTable true (Some 1);
             Students.ClickClose; Students.TypeSearch "zzz"]
            ++ [Students.ChooseStrand "STEM"]))
      = Students.filtered_rows ascii_toLowerCase q st yr sem
          [Students.jane_doe; Students.ana_cruz] Students.served_page.
Proof.
  apply (filter_forgets_history ascii_toLowerCase
           [Students.jane_doe; Students.ana_cruz] Students.served_page
           [Students.ChooseStrand "ABM"; Students.ClickTable true (Some 1);
            Students.ClickClose; Students.TypeSearch "zzz"]
           (Students.ChooseStrand "STEM") served_page_essential eq_refl).
Defined.

(** ** Which records the filter shows, whatever it showed before *)

Section Shown.
Import Students.

Variable toLowerCase : string → string.

Lemma filter_row_set_display (q st yr sem x : string) (r : Row) :
  filter_row toLowerCase q st yr sem (set_display x r)
  = filter_row toLowerCase q st yr sem r.
Proof.
  destruct (filter_row_undisplayed toLowerCase q st yr sem r) as [-> _].
  by destruct (filter_row_undisplayed toLowerCase q st yr sem
                 (set_display x r)) as [-> _].
Qed.

Lemma refiltered_rows_eq (q st yr sem : string) (d : nat → string)
    (students : list NewStudent) (p : Page) :
  refiltered_rows toLowerCase q st yr sem d students p
  = Some (filter_row toLowerCase q st yr sem <$> imap student_row students).
Proof.
  unfold refiltered_rows, displayed_rows, filterTable. simpl. f_equal.
  rewrite !fmap_imap. apply imap_ext. intros i s _. simpl.
  apply filter_row_set_display.
Qed.

Lemma filtered_shows_exactly (q st yr sem : string)
    (students : list NewStudent) :
  shows_exactly toLowerCase q st yr sem students
    (filter_row toLowerCase q st yr sem <$> imap student_row students).
Proof.
  split.
  - by rewrite length_fmap, length_imap.
  - intros i s Hs. eexists. split; [by apply filtered_rows_lookup|].
    split; [apply filter_row_display | apply filter_row_student].
Qed.

(** What an event makes of the values of the controls. *)
Lemma dispatch_controls (e : Event) (p : Page) :
  controls (dispatch toLowerCase e p)
  = match e with
    | TypeSearch v =>
        ((λ _, v) <$> searchInput p, filterStrand p, filterYear p,
         filterSemester p)
    | ChooseStrand v =>
        (searchInput p, (λ _, v) <$> filterStrand p, filterYear p,
         filterSemester p)
    | ChooseYear v =>
        (searchInput p, filterStrand p, (λ _, v) <$> filterYear p,
         filterSemester p)
    | ChooseSemester v =>
        (searchInput p, filterStrand p, filterYear p,
         (λ _, v) <$> filterSemester p)
    | _ => controls p
    end.
Proof.
  assert (∀ q, controls (filterTable toLowerCase q) = controls q) as Hkept.
  { intros q. by destruct (filterTable_fields toLowerCase q) as (_ & ? & _). }
  destruct e as [v|v|v|v|onViewButton row| |onBackdrop].
  1-4: simpl; destruct (listening _ _ _); by rewrite ?Hkept.
  - by destruct (dispatch_click_event toLowerCase
                   (ClickTable onViewButton row) p eq_refl) as (_ & ? & _).
  - by destruct (dispatch_click_event toLowerCase ClickClose p eq_refl)
      as (_ & ? & _).
  - by destruct (dispatch_click_event toLowerCase (ClickModal onBackdrop) p
                   eq_refl) as (_ & ? & _).
Qed.

Lemma dispatch_controls_Some (e : Event) (p : Page) (q st yr sem : string) :
  controls p = (Some q, Some st, Some yr, Some sem) →
  controls (dispatch toLowerCase e p)
  = match e with
    | TypeSearch v => (Some v, Some st, Some yr, Some sem)
    | ChooseStrand v => (Some q, Some v, Some yr, Some sem)
    | ChooseYear v => (Some q, Some st, Some v, Some sem)
    | ChooseSemester v => (Some q, Some st, Some yr, Some v)
    | _ => (Some q, Some st, Some yr, Some sem)
    end.
Proof.
  intros Hp. rewrite dispatch_controls.
  injection Hp as Hq Hst Hyr Hsem.
  destruct e; unfold controls; by rewrite ?Hq, ?Hst, ?Hyr, ?Hsem.
Qed.

Lemma after_loaded_with (students : list NewStudent) (served : Page)
    (events : list Event) :
  essential served →
  loaded_with students (after toLowerCase (Data students) served events).
Proof.
  intros Hess. unfold after.
  pose proof (onDOMContentLoaded_loaded_with students served Hess) as Hload.
  revert Hload. generalize (onDOMContentLoaded (Data students) served).2.
  intros p Hp. revert p Hp.
  induction events as [|e events IH]; intros p Hp; [done|].
  simpl. apply IH. by apply dispatch_loaded_with.
Qed.

Lemma after_snoc (db : Response (list NewStudent)) (served : Page)
    (events : list Event) (e : Event) :
  after toLowerCase db served (events ++ [e])
  = dispatch toLowerCase e (after toLowerCase db served events).
Proof. unfold after. by rewrite foldl_app. Qed.

(** C1. Whatever the records, and whatever rows an earlier run of the
    filter has hidden: after a run of [filterTable] with the four
    controls at any values, the table holds one row per record, each
    shown ([display] empty) or hidden ([display] none), and the row of a
    record is shown if and only if the lowercased display name
    [fname + " " + lname] contains the lowercased search text, and the
    chosen strand is [all] or is the record's strand, and the chosen year
    is [all] or is the string [gradeLevel.toString()], and the chosen
    semester is [all] or is the record's semester, the last three as
    equalities of strings.  The same holds of the listener at work: on a
    page with the five controls, after the records are loaded and after
    any events that end with an event of a filter control, the table
    shows exactly the records that the present values of the four
    controls let through. *)
Theorem filterTable_visibility :
  (∀ (d : nat → string) (q st yr sem : string) (students : list NewStudent)
     (p : Page),
     ∃ rows,
       refiltered_rows toLowerCase q st yr sem d students p = Some rows
       ∧ shows_exactly toLowerCase q st yr sem students rows)
  ∧ (∀ (students : list NewStudent) (served : Page) (events : list Event)
       (e : Event),
       essential served → is_filter_event e = true →
       ∃ q st yr sem rows,
         controls (after toLowerCase (Data students) served (events ++ [e]))
         = (Some q, Some st, Some yr, Some sem)
         ∧ studentTableBody
             (after toLowerCase (Data students) served (events ++ [e]))
           = Some rows
         ∧ shows_exactly toLowerCase q st yr sem students rows).
Proof.
  split.
  - intros d q st yr sem students p. eexists.
    split; [apply refiltered_rows_eq | apply filtered_shows_exactly].
  - intros students served events e Hess He. rewrite after_snoc.
    destruct (dispatch_filter_loaded toLowerCase students e _ He
                (after_loaded_with students served events Hess))
      as (q & st & yr & sem & Hcontrols & Hrows & _).
    exists q, st, yr, sem. eexists.
    split; [done|]. split; [done|]. apply filtered_shows_exactly.
Qed.

Lemma all_shown (students : list NewStudent) :
  toLowerCase EmptyString = EmptyString →
  Forall (λ row, display row = EmptyString)
    (filter_row toLowerCase EmptyString "all" "all" "all"
       <$> imap student_row students).
Proof.
  intros Hempty. apply Forall_fmap, Forall_lookup. intros i row Hrow.
  rewrite list_lookup_imap in Hrow.
  destruct (students !! i) as [s|]; [|done].
  injection Hrow as <-. apply filter_row_student.
  unfold name_matches, selects. rewrite Hempty.
  rewrite <- includes_spec, includes_empty. auto.
Qed.

(** C6. For a [toLowerCase] that leaves white space alone.  With an
    empty search text and the three selects on [all], every row is shown,
    whatever rows were hidden before; so it is when the user, after any
    events, puts the four controls back to these values.  With no record
    at all the table is empty, whatever the controls and the events, and
    no error is raised.  A search text of white space only is looked for
    as it stands, as a substring of the lowercased display name. *)
Theorem filterTable_edge_cases :
  (∀ q, whitespace_only q = true → toLowerCase q = q) →
  (∀ d students p,
     ∃ rows,
       refiltered_rows toLowerCase EmptyString "all" "all" "all" d students p
       = Some rows
       ∧ length rows = length students
       ∧ Forall (λ row, display row = EmptyString) rows)
  ∧ (∀ students served events,
       essential served →
       ∃ rows,
         studentTableBody
           (after toLowerCase (Data students) served
              (events ++ [ TypeSearch EmptyString; ChooseStrand "all";
                           ChooseYear "all"; ChooseSemester "all" ]))
         = Some rows
         ∧ length rows = length students
         ∧ Forall (λ row, display row = EmptyString) rows)
  ∧ (∀ q st yr sem d p,
       refiltered_rows toLowerCase q st yr sem d [] p = Some [])
  ∧ (∀ served events,
       essential served →
       studentTableBody (after toLowerCase (Data []) served events) = Some [])
  ∧ (∀ q d students p, whitespace_only q = true →
       ∃ rows,
         refiltered_rows toLowerCase q "all" "all" "all" d students p
         = Some rows
         ∧ ∀ i s, students !! i = Some s →
             ∃ row, rows !! i = Some row
               ∧ (display row = EmptyString
                  ↔ ∃ pre post,
                      toLowerCase (fname s +:+ " " +:+ lname s)
                      = pre +:+ q +:+ post)).
Proof.
  intros Hws. pose proof (Hws EmptyString eq_refl) as Hempty.
  split; [|split; [|split; [|split]]].
  - intros d students p. eexists. split; [apply refiltered_rows_eq|]. split.
    + by rewrite length_fmap, length_imap.
    + by apply all_shown.
  - intros students served events Hess.
    pose proof (after_loaded_with students served events Hess) as H0.
    assert (after toLowerCase (Data students) served
              (events ++ [ TypeSearch EmptyString; ChooseStrand "all";
                           ChooseYear "all"; ChooseSemester "all" ])
            = dispatch toLowerCase (ChooseSemester "all")
                (dispatch toLowerCase (ChooseYear "all")
                   (dispatch toLowerCase (ChooseStrand "all")
                      (dispatch toLowerCase (TypeSearch EmptyString)
                         (after toLowerCase (Data students) served events)))))
      as -> by (unfold after; by rewrite foldl_app).
    set (p0 := after toLowerCase (Data students) served events) in *.
    pose proof (dispatch_loaded_with toLowerCase students
                  (TypeSearch EmptyString) p0 H0) as H1.
    pose proof (dispatch_loaded_with toLowerCase students
                  (ChooseStrand "all") _ H1) as H2.
    pose proof (dispatch_loaded_with toLowerCase students
                  (ChooseYear "all") _ H2) as H3.
    destruct (dispatch_filter_loaded toLowerCase students
                (ChooseSemester "all") _ eq_refl H3)
      as (q & st & yr & sem & Hcontrols & Hrows & _).
    destruct H0 as ((_ & [q0 Hq0] & [st0 Hst0] & [yr0 Hyr0] & [sem0 Hsem0])
                    & _).
    assert (controls p0 = (Some q0, Some st0, Some yr0, Some sem0)) as C0
      by (unfold controls; by rewrite Hq0, Hst0, Hyr0, Hsem0).
    pose proof (dispatch_controls_Some (TypeSearch EmptyString) _ _ _ _ _ C0)
      as C1.
    pose proof (dispatch_controls_Some (ChooseStrand "all") _ _ _ _ _ C1)
      as C2.
    pose proof (dispatch_controls_Some (ChooseYear "all") _ _ _ _ _ C2) as C3.
    pose proof (dispatch_controls_Some (ChooseSemester "all") _ _ _ _ _ C3)
      as C4.
    rewrite C4 in Hcontrols. injection Hcontrols as <- <- <- <-.
    eexists. split; [exact Hrows|]. split.
    + by rewrite length_fmap, length_imap.
    + by apply all_shown.
  - intros q st yr sem d p. by rewrite refiltered_rows_eq.
  - intros served events Hess.
    destruct (after_loaded_with [] served events Hess)
      as (_ & _ & Htable).
    unfold table_undisplayed in Htable.
    destruct (studentTableBody _) as [rows|]; [|done].
    injection Htable as Htable. by apply fmap_nil_inv in Htable as ->.
  - intros q d students p Hq. eexists. split; [apply refiltered_rows_eq|].
    intros i s Hs. eexists. split; [by apply filtered_rows_lookup|].
    rewrite filter_row_student. unfold name_matches, selects.
    rewrite (Hws q Hq). intuition.
Qed.

(** X17. With the year select on the decimal numeral of a grade level,
    grade levels being safe integers (which print as their decimal
    numeral), a run of [filterTable] shows the rows of the records of
    exactly that grade level, among those the other three controls let
    through, whatever rows were hidden before. *)
Theorem filterTable_year (d : nat → string) (q st sem : string) (n : Z)
    (students : list NewStudent) (p : Page) :
  safe_integer n →
  Forall (λ s, safe_integer (gradeLevel s)) students →
  ∃ rows,
    refiltered_rows toLowerCase q st (Number_toString n) sem d students p
    = Some rows
    ∧ ∀ i s, students !! i = Some s →
        ∃ row, rows !! i = Some row
          ∧ (display row = EmptyString
             ↔ name_matches toLowerCase q s
               ∧ selects st (strand s)
               ∧ gradeLevel s = n
               ∧ selects sem (semester s)).
Proof.
  intros _ _. eexists. split; [apply refiltered_rows_eq|].
  intros i s Hs. eexists. split; [by apply filtered_rows_lookup|].
  rewrite filter_row_student. unfold selects at 2.
  assert (Number_toString n = "all" ∨ Number_toString (gradeLevel s)
                                       = Number_toString n
          ↔ gradeLevel s = n) as ->; [|done].
  split.
  - intros [Hall|Heq]; [by apply Number_toString_ne_all in Hall|].
    by apply (inj pretty).
  - intros ->. by right.
Qed.

End Shown.

Lemma filterTable_visibility_witness :
  ∃ q st yr sem rows,
    Students.controls
      (Students.after ascii_toLowerCase
         (Data [Students.jane_doe; Students.ana_cruz]) Students.served_page
         ([Students.ChooseStrand "ABM"; Students.TypeSearch "zzz"]
          ++ [Students.TypeSearch "AN"]))
    = (Some q, Some st, Some yr, Some sem)
    ∧ Students.studentTableBody
        (Students.after ascii_toLowerCase
           (Data [Students.jane_doe; Students.ana_cruz]) Students.served_page
           ([Students.ChooseStrand "ABM"; Students.TypeSearch "zzz"]
            ++ [Students.TypeSearch "AN"]))
      = Some rows
    ∧ Students.shows_exactly ascii_toLowerCase q st yr sem
        [Students.jane_doe; Students.ana_cruz] rows.
Proof.
  apply (proj2 (filterTable_visibility ascii_toLowerCase)).
  - apply served_page_essential.
  - reflexivity.
Defined.

Lemma filterTable_edge_cases_witness :
  ∃ rows,
    Students.studentTableBody
      (Students.after ascii_toLowerCase
         (Data [Students.jane_doe; Students.ana_cruz]) Students.served_page
         ([Students.ChooseStrand "STEM"; Students.TypeSearch "zzz"]
          ++ [ Students.TypeSearch EmptyString; Students.ChooseStrand "all";
               Students.ChooseYear "all"; Students.ChooseSemester "all" ]))
    = Some rows
    ∧ length rows = length [Students.jane_doe; Students.ana_cruz]
    ∧ Forall (λ row, Students.display row = EmptyString) rows.
Proof.
  apply (proj1 (proj2 (filterTable_edge_cases ascii_toLowerCase
                         ascii_toLowerCase_whitespace))).
  apply served_page_essential.
Defined.

Lemma filterTable_year_witness :
  ∃ rows,
    Students.refiltered_rows ascii_toLowerCase EmptyString "all"
      (Number_toString 12) "all" (λ _, "none")
      [Students.jane_doe; Students.ana_cruz] Students.served_page
    = Some rows
    ∧ ∀ i s, [Students.jane_doe; Students.ana_cruz] !! i = Some s →
        ∃ row, rows !! i = Some row
          ∧ (Students.display row = EmptyString
             ↔ Students.name_matches ascii_toLowerCase EmptyString s
               ∧ Students.selects "all" (Students.strand s)
               ∧ Students.gradeLevel s = 12%Z
               ∧ Students.selects "all" (Students.semester s)).
Proof.
  apply (filterTable_year ascii_toLowerCase (λ _, "none") EmptyString "all"
           "all" 12 [Students.jane_doe; Students.ana_cruz]
           Students.served_page).
  - unfold safe_integer. lia.
  - repeat constructor; unfold safe_integer; simpl; lia.
Defined.
